(** * Governed SQL query pipeline of [sql/query.py]

    A shallow embedding of the two request handlers [query] and
    [query_download]: the statements of each handler are translated one by
    one into a small control-flow monad (fall through, [return], raised
    exception) over an explicit state holding the [result] dictionary, the
    objects the handler shares with the engine, and the trace of calls made
    to the collaborators (engine adapter, privilege evaluator, scheduler,
    audit store, logger). *)

From stdpp Require Import gmap strings list sorting.
From Stdlib Require Import ZArith Lia Ascii String.

Local Open Scope string_scope.
Local Open Scope Z_scope.

(** ** Python values and builtins *)

(** The dynamically typed values the handlers receive from the request and
    from the configuration: [None], booleans, integers and text. *)
Inductive PyVal : Type :=
| PNone
| PBool (b : bool)
| PInt (z : Z)
| PStr (s : string).

(** An exception: its class name and [str(e)]. *)
Record Exn : Type := MkExn { exn_class : string; exn_str : string }.

(** Result of a call that may raise. *)
Inductive Outcome (A : Type) : Type :=
| Ret (a : A)
| Raise (e : Exn).
Arguments Ret {A} a.
Arguments Raise {A} e.

(** Truth value testing: [if v:]. *)
Definition truthy (v : PyVal) : bool :=
  match v with
  | PNone => false
  | PBool b => b
  | PInt z => negb (z =? 0)
  | PStr s => negb (String.eqb s "")
  end.

(** [v is True]. *)
Definition is_True (v : PyVal) : bool :=
  match v with
  | PBool true => true
  | _ => false
  end.

(** Truth value of an optional text ([None] and the empty text are false). *)
Definition str_truthy (o : option string) : bool :=
  match o with
  | Some s => negb (String.eqb s "")
  | None => false
  end.

Module PyInt.

(** ASCII white space as [int()] strips it: 9..13, 28..31 and 32. *)
Definition is_space (c : ascii) : bool :=
  let n := nat_of_ascii c in
  (Nat.leb 9 n && Nat.leb n 13) || (Nat.leb 28 n && Nat.leb n 32).

Definition digit_val (c : ascii) : option Z :=
  let n := nat_of_ascii c in
  if Nat.leb 48 n && Nat.leb n 57 then Some (Z.of_nat (n - 48)) else None.

Fixpoint lstrip (cs : list ascii) : list ascii :=
  match cs with
  | c :: r => if is_space c then lstrip r else cs
  | [] => []
  end.

Definition strip (cs : list ascii) : list ascii :=
  rev (lstrip (rev (lstrip cs))).

(** Decimal digits, single underscores allowed between two digits.
    [prev] tells whether the previous character was a digit. *)
Fixpoint digits (acc : Z) (prev : bool) (cs : list ascii) : option Z :=
  match cs with
  | [] => if prev then Some acc else None
  | c :: r =>
      if Ascii.eqb c "_"%char
      then (if prev then digits acc false r else None)
      else match digit_val c with
           | Some d => digits (10 * acc + d) true r
           | None => None
           end
  end.

(** Optional sign, then the digits. *)
Definition signed (cs : list ascii) : option Z :=
  match cs with
  | c :: r =>
      if Ascii.eqb c "-"%char then Z.opp <$> digits 0 false r
      else if Ascii.eqb c "+"%char then digits 0 false r
      else digits 0 false cs
  | [] => None
  end.

(** [int(s)] on text, base 10 (ASCII text; the quoting done by [repr] in
    the message is written with plain quotes). *)
Definition of_str (s : string) : Outcome Z :=
  match signed (strip (list_ascii_of_string s)) with
  | Some z => Ret z
  | None =>
      Raise (MkExn "ValueError"
               ("invalid literal for int() with base 10: '" ++ s ++ "'"))
  end.

End PyInt.

(** The builtin [int(v)]. *)
Definition py_int (v : PyVal) : Outcome Z :=
  match v with
  | PInt z => Ret z
  | PBool b => Ret (if b then 1 else 0)
  | PStr s => PyInt.of_str s
  | PNone =>
      Raise (MkExn "TypeError"
               "int() argument must be a string, a bytes-like object or a real number, not 'NoneType'")
  end.

(** [re.match(r"^explain", sql.lower())]: the first seven characters,
    lower-cased, spell [explain]. *)
Module Explain.

Definition lower (c : ascii) : ascii :=
  let n := nat_of_ascii c in
  if Nat.leb 65 n && Nat.leb n 90 then ascii_of_nat (n + 32) else c.

Fixpoint lower_str (s : string) : string :=
  match s with
  | EmptyString => EmptyString
  | String c r => String (lower c) (lower_str r)
  end.

Definition re_match (sql : string) : bool :=
  String.prefix "explain" (lower_str sql).

End Explain.

(** ** Data model *)

Record User : Type := MkUser { username : string; display : string }.

Record Instance : Type := MkInstance { instance_id : Z; instance_name : string }.

(** The form fields of the POST request handled by [query]. *)
Record PostRequest : Type := MkPostRequest {
  post_instance_name : option string;
  post_sql_content : option string;
  post_db_name : option string;
  post_tb_name : option string;
  post_limit_num : option string;
  post_schema_name : option string;
  post_user : User
}.

(** The decoded JSON body handled by [query_download], with the one form
    field it still reads from [request.POST]. *)
Record DownloadRequest : Type := MkDownloadRequest {
  body_instance_name : option string;
  body_sql_content : option string;
  body_db_name : option string;
  body_tb_name : option string;
  body_limit_num : option PyVal;
  body_download_type : option string;
  form_schema_name : option string;
  download_user : User
}.

(** What [query_engine.query_check] reports. *)
Record QueryCheckInfo : Type := MkQueryCheckInfo {
  bad_query : bool;
  has_star : bool;
  check_msg : string;
  filtered_sql : string
}.

(** What [query_priv_check] reports; the last two fields are its [data]. *)
Record PrivCheckInfo : Type := MkPrivCheckInfo {
  priv_status : Z;
  priv_msg : string;
  priv_limit_num : Z;
  priv_check : bool
}.

(** The engine's result object, with the attributes the handlers read or
    write. [rs_seconds_behind_master] is the key the handler adds through
    [__dict__]. Timer readings are integers that are only copied. *)
Record ResultSet : Type := MkResultSet {
  rs_error : option string;
  rs_rows : list (list PyVal);
  rs_column_list : list string;
  rs_column_type : list string;
  rs_affected_rows : Z;
  rs_query_time : Z;
  rs_mask_time : Z;
  rs_mask_rule_hit : bool;
  rs_is_masked : bool;
  rs_seconds_behind_master : option PyVal
}.

Definition with_error (e : option string) (r : ResultSet) : ResultSet :=
  MkResultSet e (rs_rows r) (rs_column_list r) (rs_column_type r)
    (rs_affected_rows r) (rs_query_time r) (rs_mask_time r)
    (rs_mask_rule_hit r) (rs_is_masked r) (rs_seconds_behind_master r).

Definition with_query_time (t : Z) (r : ResultSet) : ResultSet :=
  MkResultSet (rs_error r) (rs_rows r) (rs_column_list r) (rs_column_type r)
    (rs_affected_rows r) t (rs_mask_time r)
    (rs_mask_rule_hit r) (rs_is_masked r) (rs_seconds_behind_master r).

Definition with_mask_time (t : Z) (r : ResultSet) : ResultSet :=
  MkResultSet (rs_error r) (rs_rows r) (rs_column_list r) (rs_column_type r)
    (rs_affected_rows r) (rs_query_time r) t
    (rs_mask_rule_hit r) (rs_is_masked r) (rs_seconds_behind_master r).

Definition with_seconds_behind_master (v : PyVal) (r : ResultSet) : ResultSet :=
  MkResultSet (rs_error r) (rs_rows r) (rs_column_list r) (rs_column_type r)
    (rs_affected_rows r) (rs_query_time r) (rs_mask_time r)
    (rs_mask_rule_hit r) (rs_is_masked r) (Some v).

(** The audit record [QueryLog]. *)
Record QueryLog : Type := MkQueryLog {
  ql_username : string;
  ql_user_display : string;
  ql_db_name : string;
  ql_instance_name : string;
  ql_sqllog : string;
  ql_effect_row : Z;
  ql_cost_time : Z;
  ql_priv_check : bool;
  ql_hit_rule : bool;
  ql_masking : bool;
  ql_query_type : string
}.

(** ** Shared objects

    Result objects live in a store and are named by references: the object
    [query_engine.query] returns is put at [query_result]; the masking stage
    may change it in place and hand back the same reference or another one. *)
Definition Heap : Type := nat -> ResultSet.

Definition query_result : nat := 0%nat.

Definition heap_set (h : Heap) (r : nat) (v : ResultSet) : Heap :=
  fun r' => if Nat.eqb r' r then v else h r'.

Definition empty_result : ResultSet :=
  MkResultSet None [] [] [] 0 0 0 false false None.

(** [result["data"]]: the handler's own dictionary (which can only ever
    hold the key [seconds_behind_master]) or the [__dict__] of an object. *)
Inductive DataDict : Type :=
| OwnDict (seconds_behind_master : option PyVal)
| ObjDict (r : nat).

(** The [result] dictionary. *)
Record Result : Type := MkResult { status : Z; msg : string; data : DataDict }.

(** [result["data"]] as it is serialised. *)
Inductive Payload : Type :=
| PDict (seconds_behind_master : option PyVal)
| PObject (rs : ResultSet).

(** What the caller receives: the serialised [result], or one of the two
    export formats of the download handler (the inputs handed to the export
    collaborator). *)
Inductive Response : Type :=
| JsonResponse (status : Z) (msg : string) (data : Payload)
| ExcelResponse (headers : list string) (rows : list (list PyVal))
| TextResponse (column_list column_type : list string) (rows : list (list PyVal)).

(** ** Collaborators *)

(** The history of one request: each call made to a collaborator with the
    way it ended, in the order the calls are made. The masking call records
    the result object as it was handed over ([arg]), as the call left it
    ([left]), and the reference and state of the object it gave back. *)
Inductive Event : Type :=
| EvGetEngine (instance : Instance) (out : Outcome unit)
| EvQueryCheck (db_name sql : string) (out : Outcome QueryCheckInfo)
| EvQueryPrivCheck (user : User) (instance : Instance) (db_name sql : string)
    (limit_num : Z) (out : Outcome PrivCheckInfo)
| EvFilterSql (sql : string) (limit_num : Z) (out : Outcome string)
| EvReplaceLimit (sql : string) (limit_num : PyVal) (out : Outcome string)
| EvGetConnection (db_name : string) (out : Outcome PyVal)
| EvAddKillConnSchedule (name : string) (run_date : Z) (instance_id : Z)
    (thread_id : PyVal) (out : Outcome unit)
| EvSecondsBehindMaster (out : Outcome PyVal)
| EvQuery (db_name sql : string) (limit_num : PyVal)
    (schema_name tb_name : option string) (max_execution_time : Z)
    (out : Outcome ResultSet)
| EvDelSchedule (name : string) (out : Outcome unit)
| EvQueryMasking (db_name sql : string) (arg left : ResultSet)
    (out : Outcome (nat * ResultSet))
| EvLoggerWarning (sql err : string)
| EvLoggerTraceback (e : Exn)
| EvLoggerError (sql : option string) (e : Exn)
| EvConnectionCheck (out : Outcome unit)
| EvQueryLogSave (log : QueryLog) (out : Outcome unit).

(** [user_instances(user).get(instance_name=...)]. *)
Inductive Lookup : Type :=
| Found (instance : Instance)
| DoesNotExist
| LookupRaises (e : Exn).

(** The collaborators of one request. Every call may return or raise;
    [sys_config] is the snapshot that [SysConfig()] holds, [get_connection]
    gives the [thread_id] the engine has afterwards, [exec_cost] and
    [mask_cost] are the readings of the two timers, and [query_masking]
    receives the store and the reference of the result and leaves the store
    as it likes, also when it raises. *)
Record Env : Type := MkEnv {
  user_instances_get : User -> option string -> Lookup;
  sys_config : gmap string PyVal;
  get_engine : Instance -> Outcome unit;
  query_check : string -> string -> Outcome QueryCheckInfo;
  query_priv_check : User -> Instance -> string -> string -> Z -> Outcome PrivCheckInfo;
  filter_sql : string -> Z -> Outcome string;
  replace_limit : string -> PyVal -> Outcome string;
  get_connection : string -> Outcome PyVal;
  time_time : string;
  datetime_now : Z;
  add_kill_conn_schedule : string -> Z -> Z -> PyVal -> Outcome unit;
  seconds_behind_master : Outcome PyVal;
  engine_query : string -> string -> PyVal -> option string -> option string -> Z
                 -> Outcome ResultSet;
  exec_cost : Z;
  del_schedule : string -> Outcome unit;
  query_masking : string -> string -> nat -> Heap -> Heap * Outcome nat;
  mask_cost : Z;
  connection_check : Outcome unit;
  save : QueryLog -> Outcome unit
}.

(** [config.get(key, default)]. *)
Definition config_get (config : gmap string PyVal) (key : string) (default_value : PyVal) : PyVal :=
  default default_value (config !! key).

(** ** Control flow

    A statement falls through to the next one ([Next]), leaves the handler
    with a response ([Return]) or raises ([Throw]). The state holds the
    [result] dictionary, the store, the calls made so far and the current
    binding of the local [sql_content], which the outer exception handler
    reads. *)
Inductive Flow (A : Type) : Type :=
| Next (a : A)
| Return (r : Response)
| Throw (e : Exn).
Arguments Next {A} a.
Arguments Return {A} r.
Arguments Throw {A} e.

Record St : Type := MkSt {
  result : Result;
  heap : Heap;
  trace : list Event;
  sql_content : option string
}.

Definition M (A : Type) : Type := St -> Flow A * St.

Definition ret {A : Type} (a : A) : M A := fun st => (Next a, st).

Definition bind {A B : Type} (m : M A) (k : A -> M B) : M B :=
  fun st =>
    match m st with
    | (Next a, st') => k a st'
    | (Return r, st') => (Return r, st')
    | (Throw e, st') => (Throw e, st')
    end.

Notation "'let!' x ':=' m 'in' k" := (bind m (fun x => k))
  (at level 10, x name, m at level 100, k at level 200).
Notation "m ;; k" := (bind m (fun _ => k))
  (at level 100, k at level 200, right associativity).

(** [raise e]. *)
Definition throw {A : Type} (e : Exn) : M A := fun st => (Throw e, st).

(** [try: body except Exception as e: handler e]. *)
Definition try_except {A : Type} (body : M A) (handler : Exn -> M A) : M A :=
  fun st =>
    match body st with
    | (Throw e, st') => handler e st'
    | other => other
    end.

(** [if b: m]. *)
Definition when (b : bool) (m : M unit) : M unit := if b then m else ret tt.

(** A builtin that may raise. *)
Definition lift {A : Type} (o : Outcome A) : M A :=
  fun st => (match o with Ret a => Next a | Raise e => Throw e end, st).

(** A call to a collaborator: recorded with its outcome, then it returns or
    raises. *)
Definition call {A : Type} (ev : Outcome A -> Event) (o : Outcome A) : M A :=
  fun st =>
    (match o with Ret a => Next a | Raise e => Throw e end,
     MkSt (result st) (heap st) (trace st ++ [ev o]) (sql_content st)).

(** A logger call. *)
Definition log (ev : Event) : M unit :=
  fun st => (Next tt, MkSt (result st) (heap st) (trace st ++ [ev]) (sql_content st)).

Definition set_status (s : Z) : M unit :=
  fun st =>
    (Next tt,
     MkSt (MkResult s (msg (result st)) (data (result st)))
       (heap st) (trace st) (sql_content st)).

Definition set_msg (m : string) : M unit :=
  fun st =>
    (Next tt,
     MkSt (MkResult (status (result st)) m (data (result st)))
       (heap st) (trace st) (sql_content st)).

Definition set_data (d : DataDict) : M unit :=
  fun st =>
    (Next tt,
     MkSt (MkResult (status (result st)) (msg (result st)) d)
       (heap st) (trace st) (sql_content st)).

(** Assignment to the local [sql_content]. *)
Definition assign_sql (s : string) : M string :=
  fun st => (Next s, MkSt (result st) (heap st) (trace st) (Some s)).

Definition get_sql : M (option string) := fun st => (Next (sql_content st), st).

(** Attribute access on a stored object. *)
Definition read (r : nat) : M ResultSet := fun st => (Next (heap st r), st).

Definition modify (r : nat) (f : ResultSet -> ResultSet) : M unit :=
  fun st =>
    (Next tt,
     MkSt (result st) (heap_set (heap st) r (f (heap st r))) (trace st) (sql_content st)).

(** [result["data"]] as [json.dumps] sees it. *)
Definition snapshot (st : St) : Payload :=
  match data (result st) with
  | OwnDict s => PDict s
  | ObjDict r => PObject (heap st r)
  end.

(** [return HttpResponse(json.dumps(result), ...)]. *)
Definition return_json {A : Type} : M A :=
  fun st =>
    (Return (JsonResponse (status (result st)) (msg (result st)) (snapshot st)), st).

(** [result["data"]["seconds_behind_master"] = v]: a write into the
    handler's own dictionary or into the object whose [__dict__] it is. *)
Definition set_data_seconds_behind_master (v : PyVal) : M unit :=
  fun st =>
    match data (result st) with
    | OwnDict _ =>
        (Next tt,
         MkSt (MkResult (status (result st)) (msg (result st)) (OwnDict (Some v)))
           (heap st) (trace st) (sql_content st))
    | ObjDict r => modify r (with_seconds_behind_master v) st
    end.

(** [result = {"status": 0, "msg": "ok", "data": {}}]. *)
Definition initial_state (sql : option string) : St :=
  MkSt (MkResult 0 "ok" (OwnDict None)) (fun _ => empty_result) [] sql.

(** [int(request.POST.get("limit_num", 0))]. *)
Definition requested_limit (request : PostRequest) : Outcome Z :=
  py_int (match post_limit_num request with
          | Some s => PStr s
          | None => PInt 0
          end).

(** [int(request_data.get("limit_num", 0))]. *)
Definition requested_download_limit (request : DownloadRequest) : Outcome Z :=
  py_int (default (PInt 0) (body_limit_num request)).

(** ** The blocks the two handlers share

    [query_download] repeats the statements of [query] block by block; each
    repeated block is written once and used by both handlers. *)

Section Handlers.

Variable env : Env.

Let config : gmap string PyVal := sys_config env.

(** [return] of a rejection: status 1 and the given message. *)
Definition reject {A : Type} (s : Z) (m : string) : M A :=
  set_status s ;; set_msg m ;; return_json.

(** Lines 44-48 and 234-238: the instance among those of the user. *)
Definition resolve_instance (user : User) (name : option string) : M Instance :=
  match user_instances_get env user name with
  | Found instance => ret instance
  | DoesNotExist => reject 1 "你所在组未关联该实例"
  | LookupRaises e => throw e
  end.

(** Lines 51-54 and 240-243: [None in [sql_content, db_name,
    instance_name, limit_num]]; [limit_num] is an integer by then. *)
Definition required_fields (sql db_name name : option string) : M (string * string) :=
  match sql, db_name, name with
  | Some s, Some d, Some _ => ret (s, d)
  | _, _, _ => reject 1 "页面提交参数可能为空"
  end.

(** Lines 57-83 and 246-274: engine, statement check, privilege check.
    Gives the checked statement, the limit and the [priv_check] flag. *)
Definition check_and_authorize (user : User) (instance : Instance)
    (sql db_name : string) (limit_num : Z) : M (string * Z * bool) :=
  call (EvGetEngine instance) (get_engine env instance) ;;
  let! query_check_info :=
    call (EvQueryCheck db_name sql) (query_check env db_name sql) in
  when (bad_query query_check_info)
    (reject 1 (check_msg query_check_info)) ;;
  when (has_star query_check_info && is_True (config_get config "disable_star" PNone))
    (reject 1 (check_msg query_check_info)) ;;
  let! sql := assign_sql (filtered_sql query_check_info) in
  let! priv_check_info :=
    call (EvQueryPrivCheck user instance db_name sql limit_num)
      (query_priv_check env user instance db_name sql limit_num) in
  if priv_status priv_check_info =? 0
  then ret (sql, priv_limit_num priv_check_info, priv_check priv_check_info)
  else reject (priv_status priv_check_info) (priv_msg priv_check_info).

(** Line 85 and 277. *)
Definition explain_limit (sql : string) (limit_num : Z) : Z :=
  if Explain.re_match sql then 0 else limit_num.

(** Lines 91-115 and 285-309: connection, kill schedule, execution, removal
    of the schedule. Leaves the result object in the store and gives the
    replication delay read before the execution. *)
Definition execute_with_schedule (instance : Instance) (db_name sql : string)
    (limit_num : PyVal) (schema_name tb_name : option string) : M PyVal :=
  let! thread_id := call (EvGetConnection db_name) (get_connection env db_name) in
  let! max_execution_time :=
    lift (py_int (config_get config "max_execution_time" (PInt 60))) in
  let schedule_name := "query-" ++ time_time env in
  let run_date := datetime_now env + max_execution_time in
  when (truthy thread_id)
    (call (EvAddKillConnSchedule schedule_name run_date (instance_id instance) thread_id)
       (add_kill_conn_schedule env schedule_name run_date (instance_id instance) thread_id)) ;;
  let! delay := call EvSecondsBehindMaster (seconds_behind_master env) in
  let! rs :=
    call (EvQuery db_name sql limit_num schema_name tb_name (max_execution_time * 1000))
      (engine_query env db_name sql limit_num schema_name tb_name
         (max_execution_time * 1000)) in
  modify query_result (fun _ => with_query_time (exec_cost env) rs) ;;
  when (truthy thread_id)
    (call (EvDelSchedule schedule_name) (del_schedule env schedule_name)) ;;
  ret delay.

(** [query_engine.query_masking(db_name, sql_content, query_result)]: the
    engine works on the store and gives back a reference, or raises. *)
Definition call_query_masking (db_name sql : string) : M nat :=
  fun st =>
    let (h, o) := query_masking env db_name sql query_result (heap st) in
    (match o with Ret r => Next r | Raise e => Throw e end,
     MkSt (result st) h
       (trace st ++
          [EvQueryMasking db_name sql (heap st query_result) (h query_result)
             (match o with Ret r => Ret (r, h r) | Raise e => Raise e end)])
       (sql_content st)).

(** Lines 135-141 and 151-157 (329-335 and 345-351): the masking error is
    let through. *)
Definition let_through (sql err : string) : M unit :=
  log (EvLoggerWarning sql err) ;;
  modify query_result (with_error None) ;;
  set_data (ObjDict query_result).

(** Lines 118-160 and 312-354: the error of the execution, or the masking
    with its two policies, or the plain result. *)
Definition masking_block (db_name sql : string) : M unit :=
  let! executed := read query_result in
  if str_truthy (rs_error executed) then
    set_status 1 ;; set_msg (default "" (rs_error executed))
  else if truthy (config_get config "data_masking" PNone) then
    try_except
      (let! masking_result := call_query_masking db_name sql in
       modify masking_result (with_mask_time (mask_cost env)) ;;
       let! masked := read masking_result in
       if str_truthy (rs_error masked) then
         if truthy (config_get config "query_check" PNone) then
           set_status 1 ;;
           set_msg ("数据脱敏异常：" ++ default "" (rs_error masked))
         else let_through sql (default "" (rs_error masked))
       else set_data (ObjDict masking_result))
      (fun e =>
         log (EvLoggerTraceback e) ;;
         if truthy (config_get config "query_check" PNone) then
           set_status 1 ;;
           set_msg ("数据脱敏异常，请联系管理员，错误信息：" ++ exn_str e)
         else let_through sql (exn_str e))
  else set_data (ObjDict query_result).

(** Lines 163-173 and 357-367: the logged row count. *)
Definition effect_row (delay limit_num : PyVal) : M Z :=
  let! executed := read query_result in
  if negb (str_truthy (rs_error executed)) then
    set_data_seconds_behind_master delay ;;
    let! limit := lift (py_int limit_num) in
    let! executed := read query_result in
    let rows :=
      if limit =? 0 then rs_affected_rows executed
      else Z.min limit (rs_affected_rows executed) in
    call EvConnectionCheck (connection_check env) ;;
    ret rows
  else ret 0.

(** Lines 163-187 and 357-381: the audit record. *)
Definition audit_block (user : User) (instance : Instance) (db_name sql : string)
    (delay limit_num : PyVal) (checked : bool) (query_type : string) : M unit :=
  let! rows := effect_row delay limit_num in
  let! executed := read query_result in
  let query_log :=
    MkQueryLog (username user) (display user) db_name (instance_name instance) sql
      rows (rs_query_time executed) checked
      (rs_mask_rule_hit executed) (rs_is_masked executed) query_type in
  call (EvQueryLogSave query_log) (save env query_log).

(** Lines 188-194 and 382-388: the handler of the outer [try]. *)
Definition query_exception (e : Exn) : M unit :=
  let! sql := get_sql in
  log (EvLoggerError sql e) ;;
  set_status 1 ;;
  set_msg ("查询异常报错，错误信息：" ++ exn_str e) ;;
  return_json.

(** ** [query] *)

(** Lines 56-187: the body of the outer [try]. *)
Definition query_try (user : User) (instance : Instance) (sql db_name : string)
    (tb_name schema_name : option string) (limit_num : Z) : M unit :=
  let! checked := check_and_authorize user instance sql db_name limit_num in
  let '(sql, limit_num, priv) := checked in
  let limit_num := explain_limit sql limit_num in
  let! sql :=
    (let! s := call (EvFilterSql sql limit_num) (filter_sql env sql limit_num) in
     assign_sql s) in
  let! delay :=
    execute_with_schedule instance db_name sql (PInt limit_num) schema_name tb_name in
  masking_block db_name sql ;;
  audit_block user instance db_name sql delay (PInt limit_num) priv "online_query".

Definition query_handler (request : PostRequest) : M unit :=
  let! limit_num := lift (requested_limit request) in
  let user := post_user request in
  let! instance := resolve_instance user (post_instance_name request) in
  let! fields :=
    required_fields (post_sql_content request) (post_db_name request)
      (post_instance_name request) in
  let '(sql, db_name) := fields in
  try_except
    (query_try user instance sql db_name (post_tb_name request)
       (post_schema_name request) limit_num)
    query_exception ;;
  return_json.

Definition query (request : PostRequest) : Flow unit * St :=
  query_handler request (initial_state (post_sql_content request)).

(** ** [query_download] *)

(** Lines 245-381: the body of the outer [try]. *)
Definition query_download_try (user : User) (instance : Instance) (sql db_name : string)
    (tb_name schema_name : option string) (limit_num : Z) : M unit :=
  let! checked := check_and_authorize user instance sql db_name limit_num in
  let '(sql, limit_num, priv) := checked in
  let limit_num := explain_limit sql limit_num in
  let! sql :=
    (let! s := call (EvFilterSql sql limit_num) (filter_sql env sql limit_num) in
     assign_sql s) in
  let limit_num := config_get config "download_limit" PNone in
  let! sql :=
    (let! s := call (EvReplaceLimit sql limit_num) (replace_limit env sql limit_num) in
     assign_sql s) in
  let! delay :=
    execute_with_schedule instance db_name sql limit_num schema_name tb_name in
  masking_block db_name sql ;;
  audit_block user instance db_name sql delay limit_num priv "download_query".

(** Lines 391-444: the export reads [column_list], [column_type] and [rows]
    from [result["data"]]; the handler's own dictionary has none of them. *)
Definition export (download_type : string) : M unit :=
  fun st =>
    match data (result st) with
    | OwnDict _ => (Throw (MkExn "KeyError" "'column_list'"), st)
    | ObjDict r =>
        let rs := heap st r in
        if String.eqb download_type "excel"
        then (Return (ExcelResponse (rs_column_list rs) (rs_rows rs)), st)
        else (Return (TextResponse (rs_column_list rs) (rs_column_type rs) (rs_rows rs)), st)
    end.

Definition query_download_handler (request : DownloadRequest) : M unit :=
  let! limit_num := lift (requested_download_limit request) in
  let download_type := default "excel" (body_download_type request) in
  let user := download_user request in
  let! instance := resolve_instance user (body_instance_name request) in
  let! fields :=
    required_fields (body_sql_content request) (body_db_name request)
      (body_instance_name request) in
  let '(sql, db_name) := fields in
  try_except
    (query_download_try user instance sql db_name (body_tb_name request)
       (form_schema_name request) limit_num)
    query_exception ;;
  export download_type.

Definition query_download (request : DownloadRequest) : Flow unit * St :=
  query_download_handler request (initial_state (body_sql_content request)).

End Handlers.

Arguments py_int !v /.
Arguments truthy !v /.
Arguments is_True !v /.
Arguments str_truthy !o /.
Arguments PyInt.of_str : simpl never.
Arguments Explain.re_match : simpl never.
Arguments config_get : simpl never.
Arguments requested_limit : simpl never.
Arguments requested_download_limit : simpl never.

(** ** Reading a history *)

Module History.

(** Kill schedules registered: name, session id, outcome of the call. *)
Definition kill_schedules (tr : list Event) : list (string * PyVal * Outcome unit) :=
  omap (fun ev => match ev with
                  | EvAddKillConnSchedule n _ _ t o => Some (n, t, o)
                  | _ => None
                  end) tr.

(** Schedules removed: name, outcome of the call. *)
Definition removed_schedules (tr : list Event) : list (string * Outcome unit) :=
  omap (fun ev => match ev with
                  | EvDelSchedule n o => Some (n, o)
                  | _ => None
                  end) tr.

(** Session ids handed out by [get_connection]. *)
Definition connections (tr : list Event) : list (Outcome PyVal) :=
  omap (fun ev => match ev with
                  | EvGetConnection _ o => Some o
                  | _ => None
                  end) tr.

(** Statement checks: the statement as submitted, the verdict. *)
Definition statement_checks (tr : list Event) : list (string * Outcome QueryCheckInfo) :=
  omap (fun ev => match ev with
                  | EvQueryCheck _ s o => Some (s, o)
                  | _ => None
                  end) tr.

(** Calls of the privilege evaluator: statement, requested limit, answer. *)
Definition privilege_checks (tr : list Event) : list (string * Z * Outcome PrivCheckInfo) :=
  omap (fun ev => match ev with
                  | EvQueryPrivCheck _ _ _ s l o => Some (s, l, o)
                  | _ => None
                  end) tr.

(** Calls of [filter_sql]: statement, limit, rewritten statement. *)
Definition filter_calls (tr : list Event) : list (string * Z * Outcome string) :=
  omap (fun ev => match ev with
                  | EvFilterSql s l o => Some (s, l, o)
                  | _ => None
                  end) tr.

(** Calls of [replace_limit]: statement, limit, rewritten statement. *)
Definition replace_calls (tr : list Event) : list (string * PyVal * Outcome string) :=
  omap (fun ev => match ev with
                  | EvReplaceLimit s l o => Some (s, l, o)
                  | _ => None
                  end) tr.

(** Executions: statement, limit, what the engine gave back. *)
Definition executions (tr : list Event) : list (string * PyVal * Outcome ResultSet) :=
  omap (fun ev => match ev with
                  | EvQuery _ s l _ _ _ o => Some (s, l, o)
                  | _ => None
                  end) tr.

(** Masking calls: the result handed over, the same object afterwards,
    and the object given back. *)
Definition masking_calls (tr : list Event)
  : list (ResultSet * ResultSet * Outcome (nat * ResultSet)) :=
  omap (fun ev => match ev with
                  | EvQueryMasking _ _ a l o => Some (a, l, o)
                  | _ => None
                  end) tr.

(** Audit records handed to [save], with the outcome of the write. *)
Definition audit_records (tr : list Event) : list (QueryLog * Outcome unit) :=
  omap (fun ev => match ev with
                  | EvQueryLogSave q o => Some (q, o)
                  | _ => None
                  end) tr.

(** Exceptions that reached the handler of the outer [try]. *)
Definition query_errors (tr : list Event) : list Exn :=
  omap (fun ev => match ev with
                  | EvLoggerError _ e => Some e
                  | _ => None
                  end) tr.

(** Warnings of a masking failure that was let through. *)
Definition warnings (tr : list Event) : list (string * string) :=
  omap (fun ev => match ev with
                  | EvLoggerWarning s e => Some (s, e)
                  | _ => None
                  end) tr.

(** The masking stage failed: the call raised, or the object it gave back
    carries an error. *)
Definition masking_failed (out : Outcome (nat * ResultSet)) : bool :=
  match out with
  | Raise _ => true
  | Ret (_, masked) => str_truthy (rs_error masked)
  end.

End History.

(** The response and the history of a run. *)
Definition response_of (run : Flow unit * St) : Flow unit := fst run.
Definition history_of (run : Flow unit * St) : list Event := trace (snd run).

(** A run of either handler. *)
Inductive RunOf (env : Env) : Flow unit * St -> Prop :=
| run_query (request : PostRequest) : RunOf env (query env request)
| run_query_download (request : DownloadRequest) : RunOf env (query_download env request).

(** The request passed the checks that come before the engine's verdict on
    the statement [sql], which is [info]. *)
Definition Checked (env : Env) (request : PostRequest)
    (limit : Z) (instance : Instance) (sql db_name : string) (info : QueryCheckInfo) : Prop :=
  requested_limit request = Ret limit /\
  user_instances_get env (post_user request) (post_instance_name request) = Found instance /\
  post_sql_content request = Some sql /\
  post_db_name request = Some db_name /\
  post_instance_name request <> None /\
  get_engine env instance = Ret tt /\
  query_check env db_name sql = Ret info.

(** The five ways a request is turned down by policy, with the status and
    the message of the rejection. *)
Inductive Rejected (env : Env) (request : PostRequest) : Z -> string -> Prop :=
| instance_not_visible limit :
    requested_limit request = Ret limit ->
    user_instances_get env (post_user request) (post_instance_name request) = DoesNotExist ->
    Rejected env request 1 "你所在组未关联该实例"
| required_field_missing limit instance :
    requested_limit request = Ret limit ->
    user_instances_get env (post_user request) (post_instance_name request) = Found instance ->
    post_sql_content request = None \/ post_db_name request = None
      \/ post_instance_name request = None ->
    Rejected env request 1 "页面提交参数可能为空"
| bad_statement limit instance sql db_name info :
    Checked env request limit instance sql db_name info ->
    bad_query info = true ->
    Rejected env request 1 (check_msg info)
| wildcard_disabled limit instance sql db_name info :
    Checked env request limit instance sql db_name info ->
    bad_query info = false ->
    has_star info = true ->
    is_True (config_get (sys_config env) "disable_star" PNone) = true ->
    Rejected env request 1 (check_msg info)
| privilege_denied limit instance sql db_name info answer :
    Checked env request limit instance sql db_name info ->
    bad_query info = false ->
    has_star info && is_True (config_get (sys_config env) "disable_star" PNone) = false ->
    query_priv_check env (post_user request) instance db_name (filtered_sql info) limit
      = Ret answer ->
    priv_status answer <> 0 ->
    Rejected env request (priv_status answer) (priv_msg answer).

(** ** Sample collaborators and requests *)

Module Sample.

Definition alice : User := MkUser "alice" "Alice".

Definition mysql01 : Instance := MkInstance 3 "mysql01".

(** A result of one row with the given affected-row count and error. *)
Definition rows (affected : Z) (err : option string) : ResultSet :=
  MkResultSet err [[PInt 1; PStr "bob"]] ["id"; "name"] ["int"; "varchar"]
    affected 0 0 false false None.

(** Masking that works on the result in place and reports an error on
    it, the rows untouched. *)
Definition masking_fails (r : nat) (h : Heap) : Heap * Outcome nat :=
  (heap_set h r (with_error (Some "no masking rule") (h r)), Ret r).

(** Masking that raises. *)
Definition masking_raises (r : nat) (h : Heap) : Heap * Outcome nat :=
  (h, Raise (MkExn "RuntimeError" "inception unreachable")).

(** The instance [mysql01] is the only visible one; the statement check
    accepts or flags as its arguments say; the evaluator caps the limit
    at [ceiling]; the connection has session id 7. *)
Definition env (config : gmap string PyVal) (verdict : string -> QueryCheckInfo)
    (ceiling : Z) (executed : Outcome ResultSet)
    (masking : nat -> Heap -> Heap * Outcome nat) : Env :=
  MkEnv
    (fun _ name =>
       match name with
       | Some n => if String.eqb n "mysql01" then Found mysql01 else DoesNotExist
       | None => DoesNotExist
       end)
    config
    (fun _ => Ret tt)
    (fun _ sql => Ret (verdict sql))
    (fun _ _ _ _ limit =>
       Ret (MkPrivCheckInfo 0 "ok" (if limit =? 0 then ceiling else Z.min limit ceiling) true))
    (fun sql _ => Ret sql)
    (fun sql _ => Ret sql)
    (fun _ => Ret (PInt 7))
    "1700000000.5"
    1700000000
    (fun _ _ _ _ => Ret tt)
    (Ret (PInt 0))
    (fun _ _ _ _ _ _ => executed)
    12
    (fun _ => Ret tt)
    (fun _ _ => masking)
    3
    (Ret tt)
    (fun _ => Ret tt).

Definition accept (sql : string) : QueryCheckInfo := MkQueryCheckInfo false false "" sql.

Definition flag_star (sql : string) : QueryCheckInfo :=
  MkQueryCheckInfo false true "不允许使用 *" sql.

Definition request (sql : string) (limit : string) : PostRequest :=
  MkPostRequest (Some "mysql01") (Some sql) (Some "sales") None (Some limit) None alice.

Definition download (sql : string) : DownloadRequest :=
  MkDownloadRequest (Some "mysql01") (Some sql) (Some "sales") None (Some (PInt 10))
    None None alice.

Definition boom : Exn := MkExn "OperationalError" "server has gone away".

(** The same collaborators behind a lookup of the instance that raises. *)
Definition lookup_raises (e : Exn) (base : Env) : Env :=
  MkEnv (fun _ _ => LookupRaises e) (sys_config base) (get_engine base)
    (query_check base) (query_priv_check base) (filter_sql base) (replace_limit base)
    (get_connection base) (time_time base) (datetime_now base)
    (add_kill_conn_schedule base) (seconds_behind_master base) (engine_query base)
    (exec_cost base) (del_schedule base) (query_masking base) (mask_cost base)
    (connection_check base) (save base).

End Sample.

(** ** What the histories of the two handlers are checked against *)

Import History.

(** The kill schedule of a run that reached the execution with session id
    [tid]: registered once when the id is truthy, and removed once when the
    execution returned; nothing registered or removed otherwise. *)
Definition schedule_spec (env : Env) (run : Flow unit * St) : Prop :=
  forall tid sql limit out,
    In (Ret tid) (connections (history_of run)) ->
    In (sql, limit, out) (executions (history_of run)) ->
    if truthy tid then
      (exists name,
         kill_schedules (history_of run) = [(name, tid, Ret tt)] /\
         removed_schedules (history_of run) =
           match out with
           | Ret _ => [(name, del_schedule env name)]
           | Raise _ => []
           end)
    else
      (kill_schedules (history_of run) = [] /\
       removed_schedules (history_of run) = []).

(** Every masking call was handed a result that the execution returned
    without an error, with masking switched on. *)
Definition masking_spec (env : Env) (run : Flow unit * St) : Prop :=
  forall arg left out,
    In (arg, left, out) (masking_calls (history_of run)) ->
    truthy (config_get (sys_config env) "data_masking" PNone) = true /\
    exists sql limit rs,
      In (sql, limit, Ret rs) (executions (history_of run)) /\
      arg = with_query_time (exec_cost env) rs /\
      str_truthy (rs_error rs) = false.

(** For a checked statement that starts with [explain], [filter_sql] gets
    the limit 0 and the execution gets [expected]. *)
Definition explain_spec (expected : PyVal) (run : Flow unit * St) : Prop :=
  forall raw info,
    In (raw, Ret info) (statement_checks (history_of run)) ->
    Explain.re_match (filtered_sql info) = true ->
    (forall sql limit out,
       In (sql, limit, out) (filter_calls (history_of run)) -> limit = 0) /\
    (forall sql limit out,
       In (sql, limit, out) (executions (history_of run)) -> limit = expected).

(** ** More of a history: the arguments of the schedule and the timeout *)

(** Kill schedules as they are registered: name, run date, id of the
    instance, session id. *)
Definition kill_requests (tr : list Event) : list (string * Z * Z * PyVal) :=
  omap (fun ev => match ev with
                  | EvAddKillConnSchedule n d i t _ => Some (n, d, i, t)
                  | _ => None
                  end) tr.

(** The [max_execution_time] handed to [query_engine.query]. *)
Definition engine_timeouts (tr : list Event) : list Z :=
  omap (fun ev => match ev with
                  | EvQuery _ _ _ _ _ ms _ => Some ms
                  | _ => None
                  end) tr.

(** The instances an engine was asked for. *)
Definition engines (tr : list Event) : list Instance :=
  omap (fun ev => match ev with
                  | EvGetEngine i _ => Some i
                  | _ => None
                  end) tr.

(** ** [kill_query_conn]

    Lines 548-552. [Instance.objects.get(pk=...)], the engine of the
    instance and its [kill_connection] are collaborators. *)

Record KillEnv : Type := MkKillEnv {
  instance_by_pk : Z -> Lookup;
  kill_get_engine : Instance -> Outcome unit;
  kill_connection : Instance -> PyVal -> Outcome unit
}.

Inductive KillEvent : Type :=
| KvGetEngine (instance : Instance) (out : Outcome unit)
| KvKillConnection (instance : Instance) (thread_id : PyVal) (out : Outcome unit).

Definition kill_query_conn (kenv : KillEnv) (instance_id : Z) (thread_id : PyVal)
  : list KillEvent * Outcome unit :=
  match instance_by_pk kenv instance_id with
  | Found instance =>
      match kill_get_engine kenv instance with
      | Ret _ =>
          let out := kill_connection kenv instance thread_id in
          ([KvGetEngine instance (Ret tt); KvKillConnection instance thread_id out], out)
      | Raise e => ([KvGetEngine instance (Raise e)], Raise e)
      end
  | DoesNotExist =>
      ([], Raise (MkExn "DoesNotExist" "Instance matching query does not exist."))
  | LookupRaises e => ([], Raise e)
  end.

(** The sessions killed in a run of [kill_query_conn]. *)
Definition killed (kv : list KillEvent) : list (Instance * PyVal) :=
  omap (fun ev => match ev with
                  | KvKillConnection i t _ => Some (i, t)
                  | _ => None
                  end) kv.

(** ** What more the histories are checked against *)

(** An execution comes after a statement check that did not flag the
    statement and a privilege check, on the checked statement, that
    answered with status 0. *)
Definition authorised_spec (env : Env) (run : Flow unit * St) : Prop :=
  forall sql limit out,
    In (sql, limit, out) (executions (history_of run)) ->
    exists raw info requested answer,
      statement_checks (history_of run) = [(raw, Ret info)] /\
      bad_query info = false /\
      has_star info && is_True (config_get (sys_config env) "disable_star" PNone) = false /\
      privilege_checks (history_of run) = [(filtered_sql info, requested, Ret answer)] /\
      priv_status answer = 0.

(** No call is made twice in a run. *)
Definition once_spec (run : Flow unit * St) : Prop :=
  (List.length (statement_checks (history_of run)) <= 1)%nat /\
  (List.length (privilege_checks (history_of run)) <= 1)%nat /\
  (List.length (connections (history_of run)) <= 1)%nat /\
  (List.length (kill_schedules (history_of run)) <= 1)%nat /\
  (List.length (executions (history_of run)) <= 1)%nat /\
  (List.length (removed_schedules (history_of run)) <= 1)%nat /\
  (List.length (masking_calls (history_of run)) <= 1)%nat /\
  (List.length (audit_records (history_of run)) <= 1)%nat.

(** The timeout of the execution and the run date of the kill schedule
    come from the same [max_execution_time]; the schedule names the
    instance of the engine and the truthy session id of the connection. *)
Definition timing_spec (env : Env) (run : Flow unit * St) : Prop :=
  (forall ms,
     In ms (engine_timeouts (history_of run)) ->
     exists seconds,
       py_int (config_get (sys_config env) "max_execution_time" (PInt 60)) = Ret seconds /\
       ms = seconds * 1000) /\
  (forall name run_date id tid,
     In (name, run_date, id, tid) (kill_requests (history_of run)) ->
     exists seconds instance,
       py_int (config_get (sys_config env) "max_execution_time" (PInt 60)) = Ret seconds /\
       run_date = datetime_now env + seconds /\
       name = "query-" ++ time_time env /\
       In (Ret tid) (connections (history_of run)) /\
       truthy tid = true /\
       engines (history_of run) = [instance] /\
       id = instance_id instance).

(** The three together, for one pass over the paths of a handler. *)
Definition run_facts (env : Env) (run : Flow unit * St) : Prop :=
  authorised_spec env run /\ once_spec run /\ timing_spec env run.

(** A response of [query] with status 0 comes with an audit record, saved,
    of the statement that was executed. *)
Definition answered_spec (request : PostRequest) (run : Flow unit * St) : Prop :=
  forall m d,
    response_of run = Return (JsonResponse 0 m d) ->
    m = "ok" /\
    query_errors (history_of run) = [] /\
    exists checked requested answer sql limit rs log obj,
      privilege_checks (history_of run) = [(checked, requested, Ret answer)] /\
      executions (history_of run) = [(sql, limit, Ret rs)] /\
      str_truthy (rs_error rs) = false /\
      audit_records (history_of run) = [(log, Ret tt)] /\
      ql_sqllog log = sql /\
      ql_username log = username (post_user request) /\
      ql_priv_check log = priv_check answer /\
      ql_query_type log = "online_query" /\
      d = PObject obj.

(** A masking call of [query] that gave back an object without an error:
    unless a later step raised, that object is the [data] of the response. *)
Definition masked_spec (env : Env) (run : Flow unit * St) : Prop :=
  forall arg left r masked,
    In (arg, left, Ret (r, masked)) (masking_calls (history_of run)) ->
    str_truthy (rs_error masked) = false ->
    query_errors (history_of run) = [] ->
    response_of run = Return (JsonResponse 0 "ok" (PObject (heap (snd run) r))) /\
    rs_rows (heap (snd run) r) = rs_rows masked /\
    rs_is_masked (heap (snd run) r) = rs_is_masked masked /\
    rs_mask_time (heap (snd run) r) = mask_cost env.




(** [query_download] answers in JSON only to refuse. *)
Definition refusal_spec (run : Flow unit * St) : Prop :=
  forall s m d,
    response_of run = Return (JsonResponse s m d) ->
    s <> 0 /\
    (executions (history_of run) = [] \/ query_errors (history_of run) <> []).

(** A download whose execution returned an error, or whose masking failed
    with [query_check] on: unless a later step raised, the handler raises
    [KeyError] where it reads the columns. *)
Definition failed_download_spec (env : Env) (run : Flow unit * St) : Prop :=
  (forall sql limit rs,
     In (sql, limit, Ret rs) (executions (history_of run)) ->
     str_truthy (rs_error rs) = true ->
     query_errors (history_of run) = [] ->
     response_of run = Throw (MkExn "KeyError" "'column_list'") /\
     exists log,
       audit_records (history_of run) = [(log, Ret tt)] /\ ql_effect_row log = 0) /\
  (forall arg left out,
     In (arg, left, out) (masking_calls (history_of run)) ->
     masking_failed out = true ->
     truthy (config_get (sys_config env) "query_check" PNone) = true ->
     query_errors (history_of run) = [] ->
     response_of run = Throw (MkExn "KeyError" "'column_list'")).

(** A download with masking off and a [download_limit] that [int()]
    refuses: a statement executed without error is not logged and the
    answer is the generic failure. *)
Definition unlogged_spec (env : Env) (run : Flow unit * St) : Prop :=
  forall e sql limit rs,
    py_int (config_get (sys_config env) "download_limit" PNone) = Raise e ->
    truthy (config_get (sys_config env) "data_masking" PNone) = false ->
    In (sql, limit, Ret rs) (executions (history_of run)) ->
    str_truthy (rs_error rs) = false ->
    audit_records (history_of run) = [] /\
    exists e' d,
      query_errors (history_of run) = [e'] /\
      response_of run
      = Return (JsonResponse 1 ("查询异常报错，错误信息：" ++ exn_str e') d) /\
      ((forall name o, In (name, o) (removed_schedules (history_of run)) -> o = Ret tt) ->
       e' = e).

(** ** The audit table: [_querylog], [querylog], [querylog_audit], [favorite]

    Lines 448-545. The table of [QueryLog] is a list of rows and the
    queries of the handlers are read as Django runs them: [filter] keeps the
    rows that match every key, [order_by("-id")] sorts by descending id, a
    slice refuses negative bounds, [save(update_fields=...)] updates the row
    with the given id and refuses when there is none. What the database
    decides is left to it: the match of [icontains], the reading of dates,
    and whether it accepts a write. *)

Record LogRow : Type := MkLogRow {
  log_id : Z;
  log_username : string;
  log_instance_name : string;
  log_db_name : string;
  log_sqllog : string;
  log_effect_row : Z;
  log_cost_time : Z;
  log_user_display : string;
  log_favorite : bool;
  log_alias : option string;
  log_create_time : Z
}.

(** The ten columns of [.values(...)]. *)
Record LogValues : Type := MkLogValues {
  val_id : Z;
  val_instance_name : string;
  val_db_name : string;
  val_sqllog : string;
  val_effect_row : Z;
  val_cost_time : Z;
  val_user_display : string;
  val_favorite : bool;
  val_alias : option string;
  val_create_time : Z
}.

Definition values (r : LogRow) : LogValues :=
  MkLogValues (log_id r) (log_instance_name r) (log_db_name r) (log_sqllog r)
    (log_effect_row r) (log_cost_time r) (log_user_display r) (log_favorite r)
    (log_alias r) (log_create_time r).

(** The database and the date library. Times are seconds. *)
Record LogDb : Type := MkLogDb {
  icontains : string -> string -> bool;
  strptime : string -> Outcome Z;
  to_datetime : string -> Outcome Z;
  accepts_update : Outcome unit
}.

(** [request.user] as the log views read it. *)
Record Principal : Type := MkPrincipal {
  principal : User;
  is_superuser : bool;
  has_perm : string -> bool
}.

(** The parameters of [request.GET]. *)
Record LogQuery : Type := MkLogQuery {
  get_limit : option string;
  get_offset : option string;
  get_star : option string;
  get_query_log_id : option string;
  get_search : option string;
  get_start_date : option string;
  get_end_date : option string
}.

(** [filter_dict], with its four possible keys. *)
Record FilterDict : Type := MkFilterDict {
  f_favorite : option bool;
  f_id : option string;
  f_username : option string;
  f_create_time_range : option (string * Z)
}.

(** [True if v == "true" else False]. *)
Definition is_true_text (v : option string) : bool :=
  match v with
  | Some s => String.eqb s "true"
  | None => false
  end.

(** [int(request.GET.get(key, 0))]. *)
Definition get_int (v : option string) : Outcome Z :=
  py_int (match v with Some s => PStr s | None => PInt 0 end).

(** Lines 477-494. *)
Definition querylog_filter_dict (db : LogDb) (user : Principal) (q : LogQuery)
  : Outcome FilterDict :=
  let star := is_true_text (get_star q) in
  let query_log_id := get_query_log_id q in
  let start_date := default "" (get_start_date q) in
  let end_date := default "" (get_end_date q) in
  let favorite := if star then Some star else None in
  let id := if str_truthy query_log_id then query_log_id else None in
  let username :=
    if negb (is_superuser user || has_perm user "sql.audit_user")
    then Some (username (principal user)) else None in
  if str_truthy (Some start_date) && str_truthy (Some end_date) then
    match strptime db end_date with
    | Ret day => Ret (MkFilterDict favorite id username (Some (start_date, day + 86400)))
    | Raise e => Raise e
    end
  else Ret (MkFilterDict favorite id username None).

(** The number an [id] is compared as. *)
Definition id_of_text (s : string) : Outcome Z :=
  match py_int (PStr s) with
  | Ret n => Ret n
  | Raise e =>
      Raise (MkExn (exn_class e) ("Field 'id' expected a number but got '" ++ s ++ "'."))
  end.

(** [QueryLog.objects.filter] on the keys of [filter_dict]: the rows it
    keeps. *)
Definition orm_filter (db : LogDb) (f : FilterDict) : Outcome (LogRow -> bool) :=
  match match f_id f with
        | Some s => match id_of_text s with
                    | Ret n => Ret (Some n)
                    | Raise e => Raise e
                    end
        | None => Ret None
        end with
  | Raise e => Raise e
  | Ret id =>
      match match f_create_time_range f with
            | Some (start, stop) =>
                match to_datetime db start with
                | Ret t => Ret (Some (t, stop))
                | Raise e => Raise e
                end
            | None => Ret None
            end with
      | Raise e => Raise e
      | Ret range =>
          Ret (fun r =>
                 match f_favorite f with Some b => Bool.eqb (log_favorite r) b | None => true end
                 && match id with Some n => log_id r =? n | None => true end
                 && match f_username f with
                    | Some u => String.eqb (log_username r) u
                    | None => true
                    end
                 && match range with
                    | Some (t, stop) => (t <=? log_create_time r) && (log_create_time r <=? stop)
                    | None => true
                    end)
      end
  end.

(** The second [filter]: the search text in the statement, the display
    name or the alias. *)
Definition search_filter (db : LogDb) (search : string) (r : LogRow) : bool :=
  icontains db (log_sqllog r) search
  || icontains db (log_user_display r) search
  || match log_alias r with Some a => icontains db a search | None => false end.

(** [order_by("-id")]. *)
Definition by_id_desc (a b : LogRow) : Prop := log_id b <= log_id a.

#[global] Instance by_id_desc_dec : RelDecision by_id_desc :=
  fun a b => decide (log_id b <= log_id a).

Definition order_by_id_desc (rows : list LogRow) : list LogRow :=
  merge_sort by_id_desc rows.

(** [queryset[offset:limit]]. *)
Definition slice {A : Type} (offset : Z) (limit : option Z) (rows : list A)
  : Outcome (list A) :=
  if (offset <? 0) || match limit with Some stop => stop <? 0 | None => false end
  then Raise (MkExn "ValueError" "Negative indexing is not supported.")
  else
    Ret (match limit with
         | Some stop => take (Z.to_nat (stop - offset)) (drop (Z.to_nat offset) rows)
         | None => drop (Z.to_nat offset) rows
         end).

(** The rows of the table a query selects, before they are counted,
    sorted and cut. *)
Definition selected (db : LogDb) (user : Principal) (q : LogQuery) (table : list LogRow)
  : Outcome (list LogRow) :=
  match querylog_filter_dict db user q with
  | Raise e => Raise e
  | Ret f =>
      match orm_filter db f with
      | Raise e => Raise e
      | Ret keep =>
          Ret (filter (fun r => keep r && search_filter db (default "" (get_search q)) r = true)
                 table)
      end
  end.

(** Lines 458-526: the total and the page. *)
Definition _querylog (db : LogDb) (user : Principal) (q : LogQuery) (table : list LogRow)
  : Outcome (Z * list LogValues) :=
  match get_int (get_limit q) with
  | Raise e => Raise e
  | Ret limit =>
      match get_int (get_offset q) with
      | Raise e => Raise e
      | Ret offset =>
          let limit := offset + limit in
          let limit := if limit =? 0 then None else Some limit in
          match selected db user q table with
          | Raise e => Raise e
          | Ret sql_log =>
              let sql_log_count := Z.of_nat (List.length sql_log) in
              match slice offset limit (order_by_id_desc sql_log) with
              | Raise e => Raise e
              | Ret page => Ret (sql_log_count, map values page)
              end
          end
      end
  end.

(** [@permission_required(perm, raise_exception=True)]. *)
Definition permission_required {A : Type} (perm : string) (user : Principal)
    (view : Outcome A) : Outcome A :=
  if has_perm user perm then view else Raise (MkExn "PermissionDenied" "").

(** Lines 448-455. *)
Definition querylog (db : LogDb) (user : Principal) (q : LogQuery) (table : list LogRow)
  : Outcome (Z * list LogValues) :=
  permission_required "sql.menu_sqlquery" user (_querylog db user q table).

Definition querylog_audit (db : LogDb) (user : Principal) (q : LogQuery)
    (table : list LogRow) : Outcome (Z * list LogValues) :=
  permission_required "sql.audit_user" user (_querylog db user q table).

(** The parameters of the POST request of [favorite]. *)
Record FavoriteRequest : Type := MkFavoriteRequest {
  fav_query_log_id : option string;
  fav_star : option string;
  fav_alias : option string
}.

Definition with_favorite (star : bool) (alias : option string) (r : LogRow) : LogRow :=
  MkLogRow (log_id r) (log_username r) (log_instance_name r) (log_db_name r)
    (log_sqllog r) (log_effect_row r) (log_cost_time r) (log_user_display r)
    star alias (log_create_time r).

(** [QueryLog(id=..., favorite=..., alias=...).save(update_fields=
    ["favorite", "alias"])]: the table afterwards. *)
Definition save_favorite (db : LogDb) (id : option string) (star : bool)
    (alias : option string) (table : list LogRow) : Outcome (list LogRow) :=
  match id with
  | None =>
      Raise (MkExn "ValueError" "Cannot force an update in save() with no primary key.")
  | Some s =>
      match id_of_text s with
      | Raise e => Raise e
      | Ret n =>
          if existsb (fun r => log_id r =? n) table then
            match accepts_update db with
            | Ret _ =>
                Ret (map (fun r => if log_id r =? n then with_favorite star alias r else r)
                       table)
            | Raise e => Raise e
            end
          else
            Raise (MkExn "DatabaseError"
                     "Save with update_fields did not affect any rows.")
      end
  end.

(** Lines 529-545: the table afterwards; the answer is always
    [{"status": 0, "msg": "ok"}]. *)
Definition favorite (db : LogDb) (user : Principal) (request : FavoriteRequest)
    (table : list LogRow) : Outcome (list LogRow) :=
  permission_required "sql.menu_sqlquery" user
    (save_favorite db (fav_query_log_id request) (is_true_text (fav_star request))
       (fav_alias request) table).

(** ** [generate_sql]

    Lines 555-601. [Instance.objects.get(instance_name=...)], the engine
    with its [describe_table], [OpenaiClient()] and its
    [generate_sql_by_openai] are collaborators. *)

Record GenerateRequest : Type := MkGenerateRequest {
  gen_query_desc : option string;
  gen_db_type : option string;
  gen_instance_name : option string;
  gen_db_name : option string;
  gen_schema_name : option string;
  gen_tb_name : option string
}.

Record GenerateEnv : Type := MkGenerateEnv {
  instance_by_name : option string -> Lookup;
  gen_get_engine : Instance -> Outcome unit;
  describe_table : Instance -> option string -> option string -> option string
                   -> Outcome ResultSet;
  openai_client : Outcome unit;
  generate_sql_by_openai : string -> PyVal -> string -> Outcome string
}.

(** The calls [generate_sql] makes inside its [try], with their outcomes. *)
Inductive GenEvent : Type :=
| GvGetEngine (instance : Instance) (out : Outcome unit)
| GvDescribeTable (instance : Instance) (db_name tb_name schema_name : option string)
    (out : Outcome ResultSet)
| GvOpenaiClient (out : Outcome unit)
| GvGenerate (db_type : string) (structure : PyVal) (query_desc : string)
    (out : Outcome string).

(** [result["data"]]: the empty list of the early answers, or text. *)
Inductive GenData : Type :=
| GenList
| GenText (text : string).

Record GenResponse : Type := MkGenResponse {
  gen_status : Z;
  gen_msg : string;
  gen_data : GenData
}.

(** [query_result.rows[0][-1]] when there are rows, the empty text when
    there are none. *)
Definition table_structure (rows : list (list PyVal)) : Outcome PyVal :=
  match rows with
  | [] => Ret (PStr "")
  | row :: _ =>
      match last row with
      | Some cell => Ret cell
      | None => Raise (MkExn "IndexError" "list index out of range")
      end
  end.

(** Lines 584-597: the body of the [try]. *)
Definition generate_sql_try (genv : GenerateEnv) (instance : Instance)
    (db_type query_desc : string) (db_name tb_name schema_name : option string)
  : list GenEvent * Outcome string :=
  match gen_get_engine genv instance with
  | Raise e => ([GvGetEngine instance (Raise e)], Raise e)
  | Ret _ =>
      let described := describe_table genv instance db_name tb_name schema_name in
      let calls :=
        [GvGetEngine instance (Ret tt);
         GvDescribeTable instance db_name tb_name schema_name described] in
      match described with
      | Raise e => (calls, Raise e)
      | Ret query_result =>
          match openai_client genv with
          | Raise e => ((calls ++ [GvOpenaiClient (Raise e)])%list, Raise e)
          | Ret _ =>
              match table_structure (rs_rows query_result) with
              | Raise e => ((calls ++ [GvOpenaiClient (Ret tt)])%list, Raise e)
              | Ret structure =>
                  let out := generate_sql_by_openai genv db_type structure query_desc in
                  ((calls ++ [GvOpenaiClient (Ret tt);
                              GvGenerate db_type structure query_desc out])%list, out)
              end
          end
      end
  end.

(** Lines 562-601: the view under the decorator. *)
Definition generate_sql_view (genv : GenerateEnv) (request : GenerateRequest)
  : list GenEvent * Outcome GenResponse :=
  match gen_query_desc request, gen_db_type request with
  | Some query_desc, Some db_type =>
      if negb (str_truthy (Some query_desc)) || negb (str_truthy (Some db_type))
      then ([], Ret (MkGenResponse 1 "query_desc or db_type不存在" GenList))
      else
        match instance_by_name genv (gen_instance_name request) with
        | DoesNotExist => ([], Ret (MkGenResponse 1 "实例不存在" GenList))
        | LookupRaises e => ([], Raise e)
        | Found instance =>
            let (calls, out) :=
              generate_sql_try genv instance db_type query_desc (gen_db_name request)
                (gen_tb_name request) (gen_schema_name request) in
            (calls,
             Ret (match out with
                  | Ret text => MkGenResponse 0 "ok" (GenText text)
                  | Raise e => MkGenResponse 1 (exn_str e) (GenText "")
                  end))
        end
  | _, _ => ([], Ret (MkGenResponse 1 "query_desc or db_type不存在" GenList))
  end.

(** Lines 555-601: the view behind
    [@permission_required("sql.menu_sqlquery", raise_exception=True)]. *)
Definition generate_sql (genv : GenerateEnv) (user : Principal) (request : GenerateRequest)
  : list GenEvent * Outcome GenResponse :=
  if has_perm user "sql.menu_sqlquery" then generate_sql_view genv request
  else ([], Raise (MkExn "PermissionDenied" "")).

(** The texts [generate_sql_by_openai] was asked to work from. *)
Definition generations (calls : list GenEvent)
  : list (string * PyVal * string * Outcome string) :=
  omap (fun ev => match ev with
                  | GvGenerate t s d o => Some (t, s, d, o)
                  | _ => None
                  end) calls.

(** The tables described. *)
Definition descriptions (calls : list GenEvent) : list (Outcome ResultSet) :=
  omap (fun ev => match ev with
                  | GvDescribeTable _ _ _ _ o => Some o
                  | _ => None
                  end) calls.

(** ** Sample collaborators of the other views *)

Module SampleLog.

(** Dates are read as the number of their day. *)
Definition day_of (s : string) : Outcome Z :=
  if String.eqb s "2024-01-01" then Ret 0
  else if String.eqb s "2024-01-02" then Ret 86400
  else Raise (MkExn "ValueError" "time data does not match format '%Y-%m-%d'").

Definition db : LogDb :=
  MkLogDb
    (fun text search => match index 0 search text with Some _ => true | None => false end)
    day_of day_of (Ret tt).

(** A user of the query menu, and an auditor. *)
Definition alice : Principal :=
  MkPrincipal Sample.alice false (fun perm => String.eqb perm "sql.menu_sqlquery").

Definition carol : Principal :=
  MkPrincipal (MkUser "carol" "Carol") false (fun _ => true).

Definition row (id : Z) (user : string) (sql : string) (star : bool) : LogRow :=
  MkLogRow id user "mysql01" "sales" sql 1 12 user star None 100.

Definition table : list LogRow :=
  [row 1 "alice" "select 1" false; row 2 "bob" "select 2" false;
   row 3 "alice" "select 3" false].

(** No parameter at all, and a page of [limit] rows from [offset]. *)
Definition everything : LogQuery := MkLogQuery None None None None None None None.

Definition page (limit offset : string) : LogQuery :=
  MkLogQuery (Some limit) (Some offset) None None None None None.

End SampleLog.

Module SampleGen.

(** One instance, a table described by one row whose last cell is the
    statement that creates it, and a client that answers with a fixed
    statement. *)
Definition described (rows : list (list PyVal)) : ResultSet :=
  MkResultSet None rows ["Table"; "Create Table"] ["varchar"; "varchar"] 1 0 0 false false
    None.

Definition env (rows : list (list PyVal)) : GenerateEnv :=
  MkGenerateEnv
    (fun name =>
       match name with
       | Some n => if String.eqb n "mysql01" then Found Sample.mysql01 else DoesNotExist
       | None => DoesNotExist
       end)
    (fun _ => Ret tt)
    (fun _ _ _ _ => Ret (described rows))
    (Ret tt)
    (fun _ _ _ => Ret "select count(*) from orders").

Definition request (desc : option string) : GenerateRequest :=
  MkGenerateRequest desc (Some "mysql") (Some "mysql01") (Some "sales") None (Some "orders").

End SampleGen.

Module SampleKill.

(** The instances by primary key, and an engine that kills what it is
    asked to. *)
Definition env : KillEnv :=
  MkKillEnv
    (fun pk => if pk =? 3 then Found Sample.mysql01 else DoesNotExist)
    (fun _ => Ret tt)
    (fun _ _ => Ret tt).

End SampleKill.

(** * Properties *)

(** ** Symbolic execution of a handler

    [paths] walks through a handler statement by statement and opens one
    goal per way the collaborators can answer; the goal must have the shape
    [run = handler ... -> P run]. [crack] takes apart what a finished
    history says. *)

Ltac innermost x :=
  lazymatch x with
  | context [match ?y with _ => _ end] => innermost y
  | _ => x
  end.

Ltac split_goal :=
  match goal with
  | |- context [match ?x with _ => _ end] =>
      let y := innermost x in destruct y eqn:?
  end.

Ltac unfold_handlers :=
  unfold query, query_handler, query_try, query_download, query_download_handler,
    query_download_try, export, query_exception, audit_block, effect_row, masking_block,
    let_through, call_query_masking, execute_with_schedule, explain_limit,
    check_and_authorize, required_fields, resolve_instance, reject,
    set_data_seconds_behind_master, return_json, snapshot, modify, read, get_sql,
    assign_sql, set_data, set_msg, set_status, log, call, lift, when, try_except,
    throw, bind, ret, initial_state.

Ltac clash :=
  match goal with
  | H1 : ?b = true, H2 : ?b = false |- _ => rewrite H1 in H2; discriminate H2
  | H1 : ?b = true, H2 : negb ?b = true |- _ => rewrite H1 in H2; discriminate H2
  | H1 : ?b = false, H2 : negb ?b = false |- _ => rewrite H1 in H2; discriminate H2
  end.

Ltac paths :=
  unfold_handlers; repeat (simpl; split_goal); simpl;
  try clash; intros ->; unfold response_of, history_of; cbn.

Ltac crack :=
  repeat match goal with
  | |- forall _, _ => intro
  | |- ~ _ => intro
  | H : False |- _ => destruct H
  | H : _ \/ _ |- _ => destruct H
  | H : _ /\ _ |- _ => destruct H
  | H : (_, _) = (_, _) |- _ => inversion H; clear H; subst
  | H : Ret _ = Ret _ |- _ => inversion H; clear H; subst
  | H : Ret _ = Raise _ |- _ => discriminate H
  | H : Raise _ = Ret _ |- _ => discriminate H
  | H : _ :: _ = [] |- _ => discriminate H
  | H : true = false |- _ => discriminate H
  | H : false = true |- _ => discriminate H
  | u : unit |- _ => destruct u
  end.

(** ** The store *)

Lemma heap_set_same h r v : heap_set h r v r = v.
Proof. unfold heap_set. now rewrite Nat.eqb_refl. Qed.

Lemma heap_set_other h r r' v : r' <> r -> heap_set h r v r' = h r'.
Proof. intros Hne. unfold heap_set. now destruct (Nat.eqb_spec r' r). Qed.

(** A write that keeps an attribute of the object written keeps that
    attribute of every object. *)
Lemma heap_set_keeps {A : Type} (p : ResultSet -> A) h r v r' :
  p v = p (h r) -> p (heap_set h r v r') = p (h r').
Proof.
  intros Hp. unfold heap_set.
  destruct (Nat.eqb_spec r' r) as [->|]; [exact Hp|reflexivity].
Qed.

Ltac keeps := rewrite ?heap_set_same; reflexivity.

Ltac heap_norm :=
  repeat first
    [ rewrite heap_set_same in *
    | rewrite (heap_set_keeps rs_error) in * by keeps
    | rewrite (heap_set_keeps rs_rows) in * by keeps
    | rewrite (heap_set_keeps rs_affected_rows) in * by keeps
    | progress cbn [rs_error rs_rows rs_affected_rows with_mask_time with_error
                    with_query_time with_seconds_behind_master masking_failed
                    ql_effect_row heap snd fst] in * ].

(** ** Builtins *)

Example py_int_plain : py_int (PStr " 42 ") = Ret 42.
Proof. reflexivity. Qed.

Example py_int_underscore : py_int (PStr "-1_000") = Ret (-1000).
Proof. reflexivity. Qed.

Example py_int_double_underscore :
  PyInt.signed (list_ascii_of_string "1__0") = None.
Proof. reflexivity. Qed.

Example py_int_none : exists e, py_int PNone = Raise e /\ exn_class e = "TypeError".
Proof. eexists. split; reflexivity. Qed.

Example explain_upper : Explain.re_match "EXPLAIN select 1" = true.
Proof. reflexivity. Qed.

Example explain_leading_blank : Explain.re_match " explain select 1" = false.
Proof. reflexivity. Qed.

(** ** Request parsing *)

(** C10. A [limit_num] that is present and that [int()] refuses makes both
    handlers raise the exception of [int()] before anything else happens:
    the run ends with the exception instead of a response, the [result]
    dictionary is as it was created and no collaborator was called. *)
Theorem unparseable_limit_raises env (posted : PostRequest) (body : DownloadRequest) s e :
  py_int (PStr s) = Raise e ->
  post_limit_num posted = Some s ->
  body_limit_num body = Some (PStr s) ->
  query env posted = (Throw e, initial_state (post_sql_content posted)) /\
  query_download env body = (Throw e, initial_state (body_sql_content body)).
Proof.
  intros Hint Hposted Hbody.
  unfold query, query_handler, query_download, query_download_handler, bind, lift.
  unfold requested_limit, requested_download_limit.
  rewrite Hposted, Hbody. simpl default. rewrite Hint. split; reflexivity.
Qed.

Lemma unparseable_limit_raises_witness :
  let env := Sample.env ∅ Sample.accept 100 (Ret (Sample.rows 1 None)) Sample.masking_fails in
  let body :=
    MkDownloadRequest (Some "mysql01") (Some "select 1") (Some "sales") None
      (Some (PStr "abc")) None None Sample.alice in
  let e := MkExn "ValueError" "invalid literal for int() with base 10: 'abc'" in
  query env (Sample.request "select 1" "abc") = (Throw e, initial_state (Some "select 1")) /\
  query_download env body = (Throw e, initial_state (Some "select 1")).
Proof.
  intros env body e.
  apply (unparseable_limit_raises env (Sample.request "select 1" "abc") body "abc" e);
    reflexivity.
Defined.

(** ** Rejections *)

(** C7. A request turned down by policy (instance not visible, required
    field missing, bad statement, wildcard with [disable_star] on, privilege
    denied) is answered with the status and message of the rejection and an
    empty [data]; the statement is never executed and no audit record is
    saved; when the instance is not visible the privilege evaluator is never
    called. *)
Theorem rejected_by_policy env request s m :
  Rejected env request s m ->
  response_of (query env request) = Return (JsonResponse s m (PDict None)) /\
  s <> 0 /\
  executions (history_of (query env request)) = [] /\
  audit_records (history_of (query env request)) = [] /\
  (user_instances_get env (post_user request) (post_instance_name request) = DoesNotExist ->
   privilege_checks (history_of (query env request)) = []).
Proof.
  unfold response_of, history_of, query, query_handler.
  destruct 1 as [limit Hl Hi | limit instance Hl Hi Hm
                | limit instance sql db info (Hl & Hi & Hs & Hd & Hn & He & Hc) Hb
                | limit instance sql db info (Hl & Hi & Hs & Hd & Hn & He & Hc) Hb Hstar Hdis
                | limit instance sql db info answer (Hl & Hi & Hs & Hd & Hn & He & Hc)
                    Hb Hstar Hp Hst].
  - unfold bind, lift, resolve_instance. rewrite Hl, Hi. cbn. repeat split; congruence.
  - unfold bind, lift, resolve_instance, required_fields. rewrite Hl, Hi. cbn.
    destruct Hm as [Hm | [Hm | Hm]]; rewrite Hm;
      destruct (post_sql_content request), (post_db_name request),
        (post_instance_name request);
      cbn; repeat split; congruence.
  - unfold bind, lift, resolve_instance, required_fields. rewrite Hl, Hi, Hs, Hd.
    destruct (post_instance_name request); [|congruence].
    unfold_handlers. cbn. rewrite He, Hc. cbn. rewrite Hb. cbn.
    repeat split; congruence.
  - unfold bind, lift, resolve_instance, required_fields. rewrite Hl, Hi, Hs, Hd.
    destruct (post_instance_name request); [|congruence].
    unfold_handlers. cbn. rewrite He, Hc. cbn. rewrite Hb, Hstar, Hdis. cbn.
    repeat split; congruence.
  - unfold bind, lift, resolve_instance, required_fields. rewrite Hl, Hi, Hs, Hd.
    destruct (post_instance_name request); [|congruence].
    unfold_handlers. cbn. rewrite He, Hc. cbn. rewrite Hb, Hstar. cbn. rewrite Hp. cbn.
    destruct (priv_status answer =? 0) eqn:Hz; [apply Z.eqb_eq in Hz; contradiction|].
    cbn. repeat split; congruence.
Qed.

Lemma rejected_by_policy_witness :
  let env :=
    Sample.env {[ "disable_star" := PBool true ]} Sample.flag_star 100
      (Ret (Sample.rows 1 None)) Sample.masking_fails in
  let request := Sample.request "select * from orders" "0" in
  Rejected env request 1 "不允许使用 *" /\
  response_of (query env request) = Return (JsonResponse 1 "不允许使用 *" (PDict None)) /\
  executions (history_of (query env request)) = [] /\
  audit_records (history_of (query env request)) = [].
Proof.
  intros env request.
  assert (Hrej : Rejected env request 1 "不允许使用 *").
  { apply (wildcard_disabled env request 0 Sample.mysql01 "select * from orders" "sales"
             (Sample.flag_star "select * from orders")).
    - repeat split; try reflexivity. discriminate.
    - reflexivity.
    - reflexivity.
    - reflexivity. }
  split; [exact Hrej|].
  destruct (rejected_by_policy env request 1 "不允许使用 *" Hrej) as (Hr & _ & Hx & Ha & _).
  repeat split; assumption.
Defined.

(** An instance that is not visible: nothing at all is called. *)
Example rejected_unknown_instance :
  let env := Sample.env ∅ Sample.accept 100 (Ret (Sample.rows 1 None)) Sample.masking_fails in
  let request :=
    MkPostRequest (Some "pg02") (Some "select 1") (Some "sales") None (Some "10") None
      Sample.alice in
  query env request
  = (Return (JsonResponse 1 "你所在组未关联该实例" (PDict None)),
     MkSt (MkResult 1 "你所在组未关联该实例" (OwnDict None)) (fun _ => empty_result) []
       (Some "select 1")).
Proof. reflexivity. Qed.

(** ** The kill schedule *)

Ltac schedule_leaf :=
  crack;
  match goal with
  | H : truthy ?t = _ |- context [truthy ?t] => rewrite H
  end;
  first [ split; reflexivity
        | eexists; (split; [reflexivity|congruence]) ].

Lemma schedule_query env request run : run = query env request -> schedule_spec env run.
Proof. unfold schedule_spec. paths. all: schedule_leaf. Qed.

Lemma schedule_download env request run :
  run = query_download env request -> schedule_spec env run.
Proof. unfold schedule_spec. paths. all: schedule_leaf. Qed.

(** C1 (amended). In every run of either handler that reached the
    execution with a truthy session id, one kill schedule was registered, and
    the call removing that schedule was made once if the execution returned
    (successfully or with an error on the result) and not at all if the
    execution raised; with a session id that is not truthy ([None], 0) no
    schedule is registered or removed. *)
Theorem kill_schedule_removed_when_execution_returns env run tid sql limit out :
  RunOf env run ->
  In (Ret tid) (connections (history_of run)) ->
  In (sql, limit, out) (executions (history_of run)) ->
  if truthy tid then
    exists name,
      kill_schedules (history_of run) = [(name, tid, Ret tt)] /\
      removed_schedules (history_of run) =
        match out with
        | Ret _ => [(name, del_schedule env name)]
        | Raise _ => []
        end
  else
    kill_schedules (history_of run) = [] /\
    removed_schedules (history_of run) = [].
Proof.
  intros [request|request]; 
    [apply (schedule_query env request)|apply (schedule_download env request)];
    reflexivity.
Qed.

Lemma kill_schedule_removed_witness :
  let env := Sample.env ∅ Sample.accept 100 (Ret (Sample.rows 37 None)) Sample.masking_fails in
  let run := query env (Sample.request "select 1" "10") in
  kill_schedules (history_of run) = [("query-1700000000.5", PInt 7, Ret tt)] /\
  removed_schedules (history_of run) = [("query-1700000000.5", Ret tt)].
Proof.
  intros env run.
  destruct (kill_schedule_removed_when_execution_returns env run (PInt 7) "select 1"
              (PInt 10) (Ret (Sample.rows 37 None)))
    as (name & Hk & Hr).
  - apply run_query.
  - vm_compute. left. reflexivity.
  - vm_compute. left. reflexivity.
  - vm_compute. split; reflexivity.
Defined.

(** The execution raises: the schedule registered for session 7 stays. *)
Lemma kill_schedule_left_when_execution_raises :
  let env := Sample.env ∅ Sample.accept 100 (Raise Sample.boom) Sample.masking_fails in
  let run := query env (Sample.request "select 1" "10") in
  connections (history_of run) = [Ret (PInt 7)] /\
  executions (history_of run) = [("select 1", PInt 10, Raise Sample.boom)] /\
  ~ (List.length (kill_schedules (history_of run)) = 1%nat /\
     List.length (removed_schedules (history_of run)) = 1%nat).
Proof.
  vm_compute. repeat split. intros [_ H]. discriminate H.
Qed.

(** ** The masking stage is entered after a successful execution only *)

Ltac masking_leaf :=
  crack; (split; [done|]);
  eexists _, _, _; (split; [left; reflexivity|]); (split; [reflexivity|done]).

Lemma masking_query env request run : run = query env request -> masking_spec env run.
Proof. unfold masking_spec. paths. all: masking_leaf. Qed.

Lemma masking_download env request run :
  run = query_download env request -> masking_spec env run.
Proof. unfold masking_spec. paths. all: masking_leaf. Qed.

(** C8. In every run of either handler, a call of the masking stage was
    handed the result object of an execution that returned without an error
    (the object as the engine returned it, with the query time filled in),
    and [data_masking] is switched on in the configuration. *)
Theorem masking_only_after_success env run arg left out :
  RunOf env run ->
  In (arg, left, out) (masking_calls (history_of run)) ->
  truthy (config_get (sys_config env) "data_masking" PNone) = true /\
  exists sql limit rs,
    In (sql, limit, Ret rs) (executions (history_of run)) /\
    arg = with_query_time (exec_cost env) rs /\
    str_truthy (rs_error rs) = false.
Proof.
  intros [request|request];
    [apply (masking_query env request)|apply (masking_download env request)];
    reflexivity.
Qed.

Lemma masking_only_after_success_witness :
  let env :=
    Sample.env {[ "data_masking" := PBool true ]} Sample.accept 100
      (Ret (Sample.rows 37 None)) Sample.masking_fails in
  let run := query_download env (Sample.download "select 1") in
  let arg := with_query_time 12 (Sample.rows 37 None) in
  In (arg, with_error (Some "no masking rule") arg,
      Ret (query_result, with_error (Some "no masking rule") arg))
    (masking_calls (history_of run)) /\
  exists sql limit rs,
    In (sql, limit, Ret rs) (executions (history_of run)) /\
    arg = with_query_time 12 rs /\
    str_truthy (rs_error rs) = false.
Proof.
  intros env run arg.
  assert (Hin : In (arg, with_error (Some "no masking rule") arg,
                    Ret (query_result, with_error (Some "no masking rule") arg))
                  (masking_calls (history_of run))).
  { vm_compute. left. reflexivity. }
  split; [exact Hin|].
  exact (proj2 (masking_only_after_success env run _ _ _ (run_query_download env _) Hin)).
Defined.

(** An execution that comes back with an error is not masked. *)
Example failed_execution_not_masked :
  let env :=
    Sample.env {[ "data_masking" := PBool true ]} Sample.accept 100
      (Ret (Sample.rows 0 (Some "syntax error"))) Sample.masking_fails in
  masking_calls (history_of (query env (Sample.request "selec 1" "10"))) = [].
Proof. reflexivity. Qed.

(** ** The limit of an [explain] *)

Ltac explain_leaf := crack; first [congruence | split; crack; congruence].

Lemma explain_query env request run :
  run = query env request -> explain_spec (PInt 0) run.
Proof. unfold explain_spec. paths. all: explain_leaf. Qed.

Lemma explain_download env request run :
  run = query_download env request ->
  explain_spec (config_get (sys_config env) "download_limit" PNone) run.
Proof. unfold explain_spec. paths. all: explain_leaf. Qed.

(** C9 (amended). When the checked statement starts with [explain]
    (case-insensitively), [filter_sql] is called with the limit 0 by both
    handlers; [query] passes the limit 0 to the execution, [query_download]
    passes the configured [download_limit]. *)
Theorem explain_limit_zero env posted body raw info :
  (In (raw, Ret info) (statement_checks (history_of (query env posted))) ->
   Explain.re_match (filtered_sql info) = true ->
   (forall sql limit out,
      In (sql, limit, out) (filter_calls (history_of (query env posted))) -> limit = 0) /\
   (forall sql limit out,
      In (sql, limit, out) (executions (history_of (query env posted))) ->
      limit = PInt 0)) /\
  (In (raw, Ret info) (statement_checks (history_of (query_download env body))) ->
   Explain.re_match (filtered_sql info) = true ->
   (forall sql limit out,
      In (sql, limit, out) (filter_calls (history_of (query_download env body))) ->
      limit = 0) /\
   (forall sql limit out,
      In (sql, limit, out) (executions (history_of (query_download env body))) ->
      limit = config_get (sys_config env) "download_limit" PNone)).
Proof.
  split.
  - apply (explain_query env posted). reflexivity.
  - apply (explain_download env body). reflexivity.
Qed.

Lemma explain_limit_zero_witness :
  let env :=
    Sample.env {[ "download_limit" := PInt 1000 ]} Sample.accept 100
      (Ret (Sample.rows 2 None)) Sample.masking_fails in
  let sql := "EXPLAIN select * from orders" in
  (forall statement limit out,
     In (statement, limit, out)
       (executions (history_of (query env (Sample.request sql "10")))) ->
     limit = PInt 0) /\
  (forall statement limit out,
     In (statement, limit, out)
       (executions (history_of (query_download env (Sample.download sql)))) ->
     limit = PInt 1000).
Proof.
  intros env sql.
  destruct (explain_limit_zero env (Sample.request sql "10") (Sample.download sql)
              sql (Sample.accept sql)) as [Hq Hd].
  split.
  - apply Hq; [vm_compute; left; reflexivity|reflexivity].
  - apply Hd; [vm_compute; left; reflexivity|reflexivity].
Defined.

(** The download of an [explain] is executed with the download limit. *)
Lemma explain_download_limit_not_zero :
  let env :=
    Sample.env {[ "download_limit" := PInt 1000 ]} Sample.accept 100
      (Ret (Sample.rows 2 None)) Sample.masking_fails in
  let sql := "EXPLAIN select * from orders" in
  let run := query_download env (Sample.download sql) in
  statement_checks (history_of run) = [(sql, Ret (Sample.accept sql))] /\
  Explain.re_match (filtered_sql (Sample.accept sql)) = true /\
  executions (history_of run) = [(sql, PInt 1000, Ret (Sample.rows 2 None))] /\
  ~ (forall statement limit out,
       In (statement, limit, out) (executions (history_of run)) -> limit = PInt 0).
Proof.
  vm_compute. repeat split.
  intros H. specialize (H _ _ _ (or_introl eq_refl)). discriminate H.
Qed.

(** ** The limit of a download *)

(** C2. Whenever [query_download] executes a statement, the limit it passes
    is the configured [download_limit], not the limit derived from the
    privileges; the statement executed is what [replace_limit] made, with
    that limit, of the statement that [filter_sql] had rewritten with the
    privilege-derived limit (0 for an [explain]). *)
Theorem download_limit_overrides env request sql limit out :
  In (sql, limit, out) (executions (history_of (query_download env request))) ->
  limit = config_get (sys_config env) "download_limit" PNone /\
  exists checked requested answer rewritten,
    privilege_checks (history_of (query_download env request))
      = [(checked, requested, Ret answer)] /\
    filter_calls (history_of (query_download env request))
      = [(checked, explain_limit checked (priv_limit_num answer), Ret rewritten)] /\
    replace_calls (history_of (query_download env request))
      = [(rewritten, limit, Ret sql)].
Proof.
  remember (query_download env request) as run eqn:Hrun. revert Hrun.
  paths.
  all: crack.
  all: split; [reflexivity|].
  all: eexists _, _, _, _; (split; [reflexivity|]); split; [|reflexivity].
  all: match goal with H : Explain.re_match _ = _ |- _ => rewrite H end; reflexivity.
Qed.

Lemma download_limit_overrides_witness :
  let env :=
    Sample.env {[ "download_limit" := PInt 1000 ]} Sample.accept 100
      (Ret (Sample.rows 37 None)) Sample.masking_fails in
  let run := query_download env (Sample.download "select id, name from users") in
  In ("select id, name from users", PInt 1000, Ret (Sample.rows 37 None))
    (executions (history_of run)) /\
  exists checked requested answer rewritten,
    privilege_checks (history_of run) = [(checked, requested, Ret answer)] /\
    filter_calls (history_of run)
      = [(checked, explain_limit checked (priv_limit_num answer), Ret rewritten)] /\
    replace_calls (history_of run)
      = [(rewritten, PInt 1000, Ret "select id, name from users")].
Proof.
  intros env run.
  assert (Hin : In ("select id, name from users", PInt 1000, Ret (Sample.rows 37 None))
                  (executions (history_of run))).
  { vm_compute. left. reflexivity. }
  split; [exact Hin|].
  exact (proj2 (download_limit_overrides env _ _ _ _ Hin)).
Defined.

(** ** A failure of the masking stage *)

(** C3. With [query_check] on, a masking call of [query] that raised, or
    that gave back a result carrying an error, makes the response carry
    status 1 and the handler's own [data] dictionary, which holds no rows;
    unless a later step raised, the message is the one of the masking
    failure. *)
Theorem strict_masking_failure env request arg left out :
  In (arg, left, out) (masking_calls (history_of (query env request))) ->
  masking_failed out = true ->
  truthy (config_get (sys_config env) "query_check" PNone) = true ->
  exists m d,
    response_of (query env request) = Return (JsonResponse 1 m (PDict d)) /\
    (query_errors (history_of (query env request)) = [] ->
     m = match out with
         | Ret (_, masked) => "数据脱敏异常：" ++ default "" (rs_error masked)
         | Raise e => "数据脱敏异常，请联系管理员，错误信息：" ++ exn_str e
         end).
Proof.
  remember (query env request) as run eqn:Hrun. revert Hrun.
  paths.
  all: crack.
  all: heap_norm.
  all: try congruence.
  all: eexists _, _; (split; [reflexivity|]); crack; reflexivity.
Qed.

Lemma strict_masking_failure_witness :
  let env :=
    Sample.env {[ "data_masking" := PBool true; "query_check" := PBool true ]}
      Sample.accept 100 (Ret (Sample.rows 37 None)) Sample.masking_raises in
  exists d,
    response_of (query env (Sample.request "select 1" "10"))
    = Return (JsonResponse 1 "数据脱敏异常，请联系管理员，错误信息：inception unreachable" (PDict d)).
Proof.
  intros env.
  destruct (strict_masking_failure env (Sample.request "select 1" "10")
              (with_query_time 12 (Sample.rows 37 None))
              (with_query_time 12 (Sample.rows 37 None))
              (Raise (MkExn "RuntimeError" "inception unreachable")))
    as (m & d & Hr & Hm).
  - vm_compute. left. reflexivity.
  - reflexivity.
  - reflexivity.
  - exists d. rewrite Hr, Hm; reflexivity.
Defined.

(** C4. With [query_check] off, a masking call of [query] that raised, or
    that gave back a result carrying an error, is let through with a
    warning: provided no later step raised and the failed call left the rows
    of the result object alone, the response has status 0 and carries the
    result object of the execution with its error cleared and the rows the
    execution returned. *)
Theorem lenient_masking_failure env request arg left out :
  In (arg, left, out) (masking_calls (history_of (query env request))) ->
  masking_failed out = true ->
  truthy (config_get (sys_config env) "query_check" PNone) = false ->
  query_errors (history_of (query env request)) = [] ->
  rs_rows left = rs_rows arg ->
  let final := heap (snd (query env request)) query_result in
  response_of (query env request) = Return (JsonResponse 0 "ok" (PObject final)) /\
  rs_error final = None /\
  rs_rows final = rs_rows arg /\
  (exists sql limit rs,
     In (sql, limit, Ret rs) (executions (history_of (query env request))) /\
     rs_rows arg = rs_rows rs) /\
  exists sql err, warnings (history_of (query env request)) = [(sql, err)].
Proof.
  remember (query env request) as run eqn:Hrun. revert Hrun.
  paths.
  all: crack.
  all: heap_norm.
  all: try congruence.
  all: repeat split; try (reflexivity || assumption).
  all: try (eexists _, _, _; split; [left; reflexivity|reflexivity]).
  all: try (eexists _, _; reflexivity).
Qed.

Lemma lenient_masking_failure_witness :
  let env :=
    Sample.env {[ "data_masking" := PBool true ]} Sample.accept 100
      (Ret (Sample.rows 37 None)) Sample.masking_fails in
  let request := Sample.request "select 1" "10" in
  let arg := with_query_time 12 (Sample.rows 37 None) in
  let final := heap (snd (query env request)) query_result in
  response_of (query env request) = Return (JsonResponse 0 "ok" (PObject final)) /\
  rs_error final = None /\
  rs_rows final = rs_rows arg /\
  (exists sql limit rs,
     In (sql, limit, Ret rs) (executions (history_of (query env request))) /\
     rs_rows arg = rs_rows rs) /\
  exists sql err, warnings (history_of (query env request)) = [(sql, err)].
Proof.
  intros env request arg.
  apply (lenient_masking_failure env request arg
           (with_error (Some "no masking rule") arg)
           (Ret (query_result, with_error (Some "no masking rule") arg))).
  - vm_compute. now left.
  - reflexivity.
  - reflexivity.
  - reflexivity.
  - reflexivity.
Defined.

(** ** The audit record *)

(** C5 (amended). Every audit record that [query] hands to [save] has as
    its row count: 0 if the result object carries an error when the record
    is built, in particular if the execution returned one; otherwise, with
    [limit] the limit passed to the execution (the limit the privilege
    evaluator answered, 0 for an [explain]), the affected-row count if
    [limit] is 0 and the minimum of [limit] and that count if not. Without a
    masking call the error and the count are those the execution returned. *)
Theorem logged_row_count env request log out :
  In (log, out) (audit_records (history_of (query env request))) ->
  exists checked requested answer sql rs,
    requested_limit request = Ret requested /\
    privilege_checks (history_of (query env request)) = [(checked, requested, Ret answer)] /\
    let limit := explain_limit checked (priv_limit_num answer) in
    executions (history_of (query env request)) = [(sql, PInt limit, Ret rs)] /\
    let final := heap (snd (query env request)) query_result in
    ql_effect_row log =
      (if str_truthy (rs_error final) then 0
       else if limit =? 0 then rs_affected_rows final
            else Z.min limit (rs_affected_rows final)) /\
    (str_truthy (rs_error rs) = true -> ql_effect_row log = 0) /\
    (masking_calls (history_of (query env request)) = [] ->
     rs_error final = rs_error rs /\ rs_affected_rows final = rs_affected_rows rs).
Proof.
  remember (query env request) as run eqn:Hrun. revert Hrun.
  paths.
  all: crack.
  all: eexists _, _, _, _, _; (split; [reflexivity|]); (split; [reflexivity|]).
  all: match goal with H : Explain.re_match _ = _ |- _ => rewrite H end.
  all: cbv zeta; (split; [reflexivity|]).
  all: heap_norm.
  all: repeat match goal with
         | H : negb ?b = _ |- _ => destruct b eqn:?; cbn in H; try discriminate H
         end.
  all: repeat match goal with H : ?b = _ |- context [?b] => rewrite H end.
  all: cbn in *; crack.
  all: repeat split; crack; try (reflexivity || congruence).
Qed.

Lemma logged_row_count_witness :
  let env :=
    Sample.env ∅ Sample.accept 100 (Ret (Sample.rows 37 None)) Sample.masking_fails in
  let request := Sample.request "select 1" "10" in
  exists log,
    In (log, Ret tt) (audit_records (history_of (query env request))) /\
    ql_effect_row log = 10.
Proof.
  intros env request.
  set (log := MkQueryLog "alice" "Alice" "sales" "mysql01" "select 1" 10 12 true false false
                "online_query").
  assert (Hin : In (log, Ret tt) (audit_records (history_of (query env request)))).
  { vm_compute. left. reflexivity. }
  exists log. split; [exact Hin|].
  destruct (logged_row_count env request log (Ret tt) Hin)
    as (checked & requested & answer & sql & rs & _ & _ & _ & Hrows & _).
  reflexivity.
Defined.

(** Requested limit 0, limit 20 from the privilege evaluator, 37 rows
    affected: 20 rows are logged. *)
Lemma logged_row_count_not_requested_limit :
  let env :=
    Sample.env ∅ Sample.accept 20 (Ret (Sample.rows 37 None)) Sample.masking_fails in
  let request := Sample.request "show tables" "0" in
  let run := query env request in
  requested_limit request = Ret 0 /\
  executions (history_of run) = [("show tables", PInt 20, Ret (Sample.rows 37 None))] /\
  ~ (forall log out requested sql limit rs,
       In (log, out) (audit_records (history_of run)) ->
       requested_limit request = Ret requested ->
       In (sql, limit, Ret rs) (executions (history_of run)) ->
       ql_effect_row log =
         if str_truthy (rs_error rs) then 0
         else if requested =? 0 then rs_affected_rows rs
              else Z.min requested (rs_affected_rows rs)).
Proof.
  intros env request run.
  split; [reflexivity|]. split; [vm_compute; reflexivity|].
  intros H.
  specialize (H (MkQueryLog "alice" "Alice" "sales" "mysql01" "show tables" 20 12 true
                   false false "online_query")
                (Ret tt) 0 "show tables" (PInt 20) (Sample.rows 37 None)).
  assert (Hv : 20 = 37); [|discriminate Hv].
  apply H.
  - vm_compute. left. reflexivity.
  - reflexivity.
  - vm_compute. left. reflexivity.
Qed.

(** ** Errors of the execution and unexpected failures *)

(** C6 (amended). When the execution of [query] returned a result with an
    error and no later step raised, the response has status 1 and that error
    as its message, and one audit record, with row count 0, was saved. Every
    exception that reaches the handler of the outer [try] (raised between
    the creation of the engine and the saving of the audit record, outside
    the masking stage) gives a response with status 1 and the generic
    message, and no audit record was saved. *)
Theorem errors_and_failures env request :
  (forall sql limit rs err,
     In (sql, limit, Ret rs) (executions (history_of (query env request))) ->
     rs_error rs = Some err -> err <> "" ->
     query_errors (history_of (query env request)) = [] ->
     response_of (query env request) = Return (JsonResponse 1 err (PDict None)) /\
     exists log,
       audit_records (history_of (query env request)) = [(log, Ret tt)] /\
       ql_effect_row log = 0) /\
  (forall e,
     In e (query_errors (history_of (query env request))) ->
     (exists d,
        response_of (query env request)
        = Return (JsonResponse 1 ("查询异常报错，错误信息：" ++ exn_str e) d)) /\
     forall log, ~ In (log, Ret tt) (audit_records (history_of (query env request)))).
Proof.
  remember (query env request) as run eqn:Hrun. revert Hrun.
  paths.
  all: split; crack; subst.
  all: repeat match goal with
         | H : rs_error ?r = Some ?e, H' : context [rs_error ?r] |- _ =>
             rewrite H in H'; cbn in H'
         | H : negb (String.eqb ?e "") = false |- _ =>
             apply negb_false_iff, String.eqb_eq in H; subst
         end.
  all: try congruence.
  all: try match goal with H : rs_error ?r = Some ?e |- _ => rewrite H end.
  all: repeat split; crack; try (reflexivity || congruence).
  all: try (eexists; split; reflexivity).
  all: try (eexists; reflexivity).
Qed.

Lemma errors_and_failures_witness :
  let failed := Sample.rows 0 (Some "You have an error in your SQL syntax") in
  let env := Sample.env ∅ Sample.accept 100 (Ret failed) Sample.masking_fails in
  let raising := Sample.env ∅ Sample.accept 100 (Raise Sample.boom) Sample.masking_fails in
  let request := Sample.request "selec 1" "10" in
  (response_of (query env request)
   = Return (JsonResponse 1 "You have an error in your SQL syntax" (PDict None)) /\
   exists log,
     audit_records (history_of (query env request)) = [(log, Ret tt)] /\
     ql_effect_row log = 0) /\
  ((exists d,
      response_of (query raising request)
      = Return (JsonResponse 1 "查询异常报错，错误信息：server has gone away" d)) /\
   forall log, ~ In (log, Ret tt) (audit_records (history_of (query raising request)))).
Proof.
  intros failed env raising request. split.
  - apply (proj1 (errors_and_failures env request) "selec 1" (PInt 10) failed).
    + vm_compute. left. reflexivity.
    + reflexivity.
    + discriminate.
    + reflexivity.
  - apply (proj2 (errors_and_failures raising request) Sample.boom).
    vm_compute. left. reflexivity.
Defined.

(** An unparseable limit, or a lookup of the instance that raises anything
    but [DoesNotExist]: the run ends with the exception, there is no
    response. *)
Lemma unguarded_exception_no_result :
  let env :=
    Sample.env ∅ Sample.accept 100 (Ret (Sample.rows 1 None)) Sample.masking_fails in
  query env (Sample.request "select 1" "abc")
  = (Throw (MkExn "ValueError" "invalid literal for int() with base 10: 'abc'"),
     initial_state (Some "select 1")) /\
  query (Sample.lookup_raises Sample.boom env) (Sample.request "select 1" "10")
  = (Throw Sample.boom, initial_state (Some "select 1")) /\
  ~ (exists s m d,
       response_of (query env (Sample.request "select 1" "abc"))
       = Return (JsonResponse s m d)).
Proof.
  intros env. repeat split; try reflexivity.
  intros (s & m & d & H). discriminate H.
Qed.

(** ** A run from the request to the audit record *)

(** Requested limit 0, limit 100 from the privilege evaluator, masking off:
    the statement is executed with limit 100 and logged with the privilege
    check on. *)
Example governed_query :
  let env :=
    Sample.env ∅ Sample.accept 100 (Ret (Sample.rows 37 None)) Sample.masking_fails in
  let run := query env (Sample.request "select id from orders" "0") in
  response_of run
  = Return (JsonResponse 0 "ok"
              (PObject (with_seconds_behind_master (PInt 0)
                          (with_query_time 12 (Sample.rows 37 None))))) /\
  executions (history_of run)
  = [("select id from orders", PInt 100, Ret (Sample.rows 37 None))] /\
  audit_records (history_of run)
  = [(MkQueryLog "alice" "Alice" "sales" "mysql01" "select id from orders" 37 12 true
        false false "online_query", Ret tt)].
Proof. vm_compute. repeat split. Qed.

(** * The rest of the file

    More of the two handlers, and the other views of the file. The
    handlers are read as above: what runs once
    [@permission_required("sql.query_submit", raise_exception=True)] has let
    the request through. A request it turns away calls nothing and gets no
    answer, and the properties below all start from a call that was made or
    an answer that was given. *)

(** ** Authorisation, single calls and the timeout *)

Ltac authorised_leaf :=
  crack; eexists _, _, _, _; repeat split; first [reflexivity | done | (apply Z.eqb_eq; done)].

Ltac once_leaf := repeat split; cbn; lia.

Ltac timing_leaf :=
  split;
  [ crack; subst; eexists; (split; [first [eassumption|reflexivity]|reflexivity])
  | crack; subst; eexists _, _; repeat split;
    first [eassumption | reflexivity | (left; reflexivity)] ].

Lemma run_facts_query env request run : run = query env request -> run_facts env run.
Proof.
  unfold run_facts, authorised_spec, once_spec, timing_spec, kill_requests, engine_timeouts, engines.
  paths.
  all: split; [authorised_leaf|split; [once_leaf|timing_leaf]].
Qed.

Lemma run_facts_download env request run :
  run = query_download env request -> run_facts env run.
Proof.
  unfold run_facts, authorised_spec, once_spec, timing_spec, kill_requests, engine_timeouts, engines.
  paths.
  all: split; [authorised_leaf|split; [once_leaf|timing_leaf]].
Qed.

(** ** Answers of [query] *)

Ltac answered_leaf :=
  crack; (split; [reflexivity|]); (split; [reflexivity|]);
  eexists _, _, _, _, _, _, _, _; repeat split; first [reflexivity | done].

Lemma answered_query env request run : run = query env request -> answered_spec request run.
Proof.
  unfold answered_spec.
  paths.
  all: try (intros ? ? ?; discriminate).
  all: intros ? ? H; inversion H; subst; clear H.
  all: try match goal with
         | H : (?x =? 0) = false, H' : ?x = 0 |- _ => apply Z.eqb_neq in H; contradiction
         end.
  all: repeat match goal with u : unit |- _ => destruct u end.
  all: (split; [reflexivity|]); (split; [reflexivity|]);
    eexists _, _, _, _, _, _, _, _; repeat split; first [reflexivity | done].
Qed.

Lemma masked_query env request run : run = query env request -> masked_spec env run.
Proof.
  unfold masked_spec.
  paths.
  all: crack.
  all: heap_norm.
  all: try congruence.
  all: repeat split; try reflexivity.
  all: rewrite ?(heap_set_keeps rs_is_masked) by keeps;
       rewrite ?(heap_set_keeps rs_mask_time) by keeps;
       rewrite ?heap_set_same; reflexivity.
Qed.

(** ** Answers of [query_download] *)


Lemma refusal_download env request run :
  run = query_download env request -> refusal_spec run.
Proof.
  unfold refusal_spec.
  paths.
  all: try (intros ? ? ? ?; discriminate).
  all: intros ? ? ? H; inversion H; subst; clear H.
  all: split; [try discriminate; try (apply Z.eqb_neq; assumption)
              |first [left; reflexivity | right; discriminate]].
Qed.

Lemma failed_download env request run :
  run = query_download env request -> failed_download_spec env run.
Proof.
  unfold failed_download_spec.
  paths.
  all: split; crack; heap_norm; try congruence.
  all: repeat match goal with
         | H : ?b = true, H' : negb ?b = true |- _ => rewrite H in H'; discriminate H'
         end.
  all: split; [reflexivity|eexists; split; reflexivity].
Qed.

Lemma unlogged_download env request run :
  run = query_download env request -> unlogged_spec env run.
Proof.
  unfold unlogged_spec.
  paths.
  all: crack.
  all: try congruence.
  all: try match goal with
         | H : negb ?b = false, H' : ?b = false |- _ => rewrite H' in H; discriminate H
         end.
  all: split; [reflexivity|].
  all: eexists _, _; (split; [reflexivity|]); (split; [reflexivity|]).
  all: intros Hdel; try reflexivity; try congruence.
  all: try (specialize (Hdel _ _ (or_introl eq_refl)); discriminate Hdel).
Qed.

(** ** The handlers, property by property *)

(** X1. In every run of either handler a statement is executed only after
    exactly one statement check, which returned without flagging the
    statement (no bad query, no wildcard under [disable_star]), and exactly
    one privilege check, made on the statement as the check filtered it,
    which returned status 0. *)
Theorem execution_is_authorised env run sql limit out :
  RunOf env run ->
  In (sql, limit, out) (executions (history_of run)) ->
  exists raw info requested answer,
    statement_checks (history_of run) = [(raw, Ret info)] /\
    bad_query info = false /\
    has_star info && is_True (config_get (sys_config env) "disable_star" PNone) = false /\
    privilege_checks (history_of run) = [(filtered_sql info, requested, Ret answer)] /\
    priv_status answer = 0.
Proof.
  intros [request|request] Hin.
  - exact (proj1 (run_facts_query env request _ eq_refl) _ _ _ Hin).
  - exact (proj1 (run_facts_download env request _ eq_refl) _ _ _ Hin).
Qed.

Lemma execution_is_authorised_witness :
  let env := Sample.env ∅ Sample.accept 100 (Ret (Sample.rows 37 None)) Sample.masking_fails in
  let run := query env (Sample.request "select 1" "10") in
  In ("select 1", PInt 10, Ret (Sample.rows 37 None)) (executions (history_of run)) /\
  exists raw info requested answer,
    statement_checks (history_of run) = [(raw, Ret info)] /\
    bad_query info = false /\
    has_star info && is_True (config_get (sys_config env) "disable_star" PNone) = false /\
    privilege_checks (history_of run) = [(filtered_sql info, requested, Ret answer)] /\
    priv_status answer = 0.
Proof.
  intros env run.
  assert (Hin : In ("select 1", PInt 10, Ret (Sample.rows 37 None))
                  (executions (history_of run))) by (vm_compute; left; reflexivity).
  split; [exact Hin|].
  exact (execution_is_authorised env run _ _ _ (run_query env _) Hin).
Defined.

(** X2. In every run of either handler each of these is done at most once:
    the statement check, the privilege check, taking a connection,
    registering a kill schedule, the execution, removing a schedule, the
    masking call and saving an audit record. *)
Theorem no_call_twice env run :
  RunOf env run ->
  (List.length (statement_checks (history_of run)) <= 1)%nat /\
  (List.length (privilege_checks (history_of run)) <= 1)%nat /\
  (List.length (connections (history_of run)) <= 1)%nat /\
  (List.length (kill_schedules (history_of run)) <= 1)%nat /\
  (List.length (executions (history_of run)) <= 1)%nat /\
  (List.length (removed_schedules (history_of run)) <= 1)%nat /\
  (List.length (masking_calls (history_of run)) <= 1)%nat /\
  (List.length (audit_records (history_of run)) <= 1)%nat.
Proof.
  intros [request|request].
  - exact (proj1 (proj2 (run_facts_query env request _ eq_refl))).
  - exact (proj1 (proj2 (run_facts_download env request _ eq_refl))).
Qed.

Lemma no_call_twice_witness :
  let env := Sample.env ∅ Sample.accept 100 (Ret (Sample.rows 37 None)) Sample.masking_fails in
  let run := query env (Sample.request "select 1" "10") in
  List.length (executions (history_of run)) = 1%nat /\
  (List.length (statement_checks (history_of run)) <= 1)%nat /\
  (List.length (privilege_checks (history_of run)) <= 1)%nat /\
  (List.length (connections (history_of run)) <= 1)%nat /\
  (List.length (kill_schedules (history_of run)) <= 1)%nat /\
  (List.length (executions (history_of run)) <= 1)%nat /\
  (List.length (removed_schedules (history_of run)) <= 1)%nat /\
  (List.length (masking_calls (history_of run)) <= 1)%nat /\
  (List.length (audit_records (history_of run)) <= 1)%nat.
Proof.
  intros env run. split; [vm_compute; reflexivity|].
  exact (no_call_twice env run (run_query env _)).
Defined.

(** X3. The timeout handed to the engine with the statement is the
    configured [max_execution_time], 60 when none is configured, read with
    [int()] and turned from seconds into milliseconds. *)
Theorem timeout_from_configuration env run ms :
  RunOf env run ->
  In ms (engine_timeouts (history_of run)) ->
  exists seconds,
    py_int (config_get (sys_config env) "max_execution_time" (PInt 60)) = Ret seconds /\
    ms = seconds * 1000.
Proof.
  intros [request|request] Hin.
  - exact (proj1 (proj2 (proj2 (run_facts_query env request _ eq_refl))) _ Hin).
  - exact (proj1 (proj2 (proj2 (run_facts_download env request _ eq_refl))) _ Hin).
Qed.

Lemma timeout_from_configuration_witness :
  let env := Sample.env ∅ Sample.accept 100 (Ret (Sample.rows 37 None)) Sample.masking_fails in
  let run := query_download env (Sample.download "select 1") in
  In 60000 (engine_timeouts (history_of run)) /\
  exists seconds,
    py_int (config_get (sys_config env) "max_execution_time" (PInt 60)) = Ret seconds /\
    60000 = seconds * 1000.
Proof.
  intros env run.
  assert (Hin : In 60000 (engine_timeouts (history_of run))) by (vm_compute; left; reflexivity).
  split; [exact Hin|].
  exact (timeout_from_configuration env run 60000 (run_query_download env _) Hin).
Defined.

(** X4. A kill schedule registered in a run of either handler is named
    [query-] followed by the time, is due [max_execution_time] seconds from
    now (the same value the execution is limited by), and carries the id of
    the one instance an engine was taken for and the truthy session id the
    connection gave. *)
Theorem kill_schedule_names_the_session env run name run_date id tid :
  RunOf env run ->
  In (name, run_date, id, tid) (kill_requests (history_of run)) ->
  exists seconds instance,
    py_int (config_get (sys_config env) "max_execution_time" (PInt 60)) = Ret seconds /\
    run_date = datetime_now env + seconds /\
    name = "query-" ++ time_time env /\
    In (Ret tid) (connections (history_of run)) /\
    truthy tid = true /\
    engines (history_of run) = [instance] /\
    id = instance_id instance.
Proof.
  intros [request|request] Hin.
  - exact (proj2 (proj2 (proj2 (run_facts_query env request _ eq_refl))) _ _ _ _ Hin).
  - exact (proj2 (proj2 (proj2 (run_facts_download env request _ eq_refl))) _ _ _ _ Hin).
Qed.

Lemma kill_schedule_names_the_session_witness :
  let env := Sample.env ∅ Sample.accept 100 (Ret (Sample.rows 37 None)) Sample.masking_fails in
  let run := query env (Sample.request "select 1" "10") in
  In ("query-1700000000.5", 1700000060, 3, PInt 7) (kill_requests (history_of run)) /\
  exists seconds instance,
    py_int (config_get (sys_config env) "max_execution_time" (PInt 60)) = Ret seconds /\
    1700000060 = datetime_now env + seconds /\
    "query-1700000000.5" = "query-" ++ time_time env /\
    In (Ret (PInt 7)) (connections (history_of run)) /\
    truthy (PInt 7) = true /\
    engines (history_of run) = [instance] /\
    3 = instance_id instance.
Proof.
  intros env run.
  assert (Hin : In ("query-1700000000.5", 1700000060, 3, PInt 7)
                  (kill_requests (history_of run))) by (vm_compute; left; reflexivity).
  split; [exact Hin|].
  exact (kill_schedule_names_the_session env run _ _ _ _ (run_query env _) Hin).
Defined.

(** X5. [kill_query_conn] called with the instance id and session id of a
    kill schedule that a run registered, where the instance of the run is
    found again by its primary key and gives an engine: it kills exactly
    the session of the connection the statement was sent on, on that
    instance, and its outcome is that of [kill_connection]. *)
Theorem scheduled_kill_hits_the_session env kenv run name run_date id tid :
  RunOf env run ->
  In (name, run_date, id, tid) (kill_requests (history_of run)) ->
  (forall instance,
     In instance (engines (history_of run)) ->
     instance_by_pk kenv (instance_id instance) = Found instance /\
     kill_get_engine kenv instance = Ret tt) ->
  exists instance,
    engines (history_of run) = [instance] /\
    In (Ret tid) (connections (history_of run)) /\
    killed (fst (kill_query_conn kenv id tid)) = [(instance, tid)] /\
    snd (kill_query_conn kenv id tid) = kill_connection kenv instance tid.
Proof.
  intros Hrun Hin Hkenv.
  assert (Hfacts : timing_spec env run).
  { destruct Hrun as [request|request].
    - exact (proj2 (proj2 (run_facts_query env request _ eq_refl))).
    - exact (proj2 (proj2 (run_facts_download env request _ eq_refl))). }
  destruct (proj2 Hfacts _ _ _ _ Hin)
    as (seconds & instance & _ & _ & _ & Hconn & _ & Heng & ->).
  destruct (Hkenv instance) as [Hpk Hget]; [rewrite Heng; now left|].
  exists instance. repeat split; try assumption.
  - unfold kill_query_conn. rewrite Hpk, Hget. reflexivity.
  - unfold kill_query_conn. rewrite Hpk, Hget. reflexivity.
Qed.

Lemma scheduled_kill_hits_the_session_witness :
  let env := Sample.env ∅ Sample.accept 100 (Ret (Sample.rows 37 None)) Sample.masking_fails in
  let run := query env (Sample.request "select 1" "10") in
  In ("query-1700000000.5", 1700000060, 3, PInt 7) (kill_requests (history_of run)) /\
  exists instance,
    engines (history_of run) = [instance] /\
    In (Ret (PInt 7)) (connections (history_of run)) /\
    killed (fst (kill_query_conn SampleKill.env 3 (PInt 7))) = [(instance, PInt 7)] /\
    snd (kill_query_conn SampleKill.env 3 (PInt 7))
    = kill_connection SampleKill.env instance (PInt 7).
Proof.
  intros env run.
  assert (Hin : In ("query-1700000000.5", 1700000060, 3, PInt 7)
                  (kill_requests (history_of run))) by (vm_compute; left; reflexivity).
  split; [exact Hin|].
  assert (Heng : engines (history_of run) = [Sample.mysql01]) by (vm_compute; reflexivity).
  apply (scheduled_kill_hits_the_session env SampleKill.env run _ _ _ _ (run_query env _) Hin).
  intros instance Hi. rewrite Heng in Hi. destruct Hi as [<-|[]]. split; reflexivity.
Defined.

(** X6. An answer of [query] with status 0 has the message [ok] and a
    result object as its data; no exception was caught on the way; one
    privilege check and one execution returned, the result without an
    error; and one audit record was saved, of the statement as it was
    executed, under the name of the user, with the [priv_check] flag of the
    privilege check and the type [online_query]. *)
Theorem ok_answer_is_logged env request m d :
  response_of (query env request) = Return (JsonResponse 0 m d) ->
  m = "ok" /\
  query_errors (history_of (query env request)) = [] /\
  exists checked requested answer sql limit rs log obj,
    privilege_checks (history_of (query env request)) = [(checked, requested, Ret answer)] /\
    executions (history_of (query env request)) = [(sql, limit, Ret rs)] /\
    str_truthy (rs_error rs) = false /\
    audit_records (history_of (query env request)) = [(log, Ret tt)] /\
    ql_sqllog log = sql /\
    ql_username log = username (post_user request) /\
    ql_priv_check log = priv_check answer /\
    ql_query_type log = "online_query" /\
    d = PObject obj.
Proof. exact (answered_query env request _ eq_refl m d). Qed.

Lemma ok_answer_is_logged_witness :
  let env := Sample.env ∅ Sample.accept 100 (Ret (Sample.rows 37 None)) Sample.masking_fails in
  let request := Sample.request "select 1" "10" in
  let d :=
    PObject (MkResultSet None [[PInt 1; PStr "bob"]] ["id"; "name"] ["int"; "varchar"]
               37 12 0 false false (Some (PInt 0))) in
  response_of (query env request) = Return (JsonResponse 0 "ok" d) /\
  query_errors (history_of (query env request)) = [] /\
  exists checked requested answer sql limit rs log obj,
    privilege_checks (history_of (query env request)) = [(checked, requested, Ret answer)] /\
    executions (history_of (query env request)) = [(sql, limit, Ret rs)] /\
    str_truthy (rs_error rs) = false /\
    audit_records (history_of (query env request)) = [(log, Ret tt)] /\
    ql_sqllog log = sql /\
    ql_username log = username (post_user request) /\
    ql_priv_check log = priv_check answer /\
    ql_query_type log = "online_query" /\
    d = PObject obj.
Proof.
  intros env request d.
  assert (Hr : response_of (query env request) = Return (JsonResponse 0 "ok" d))
    by (vm_compute; reflexivity).
  split; [exact Hr|].
  exact (proj2 (ok_answer_is_logged env request "ok" d Hr)).
Defined.

(** X7. When the masking call of [query] gave back an object without an
    error and no exception was caught, that object is the data of the
    answer, the answer has status 0, and the object carries the rows and
    the masked flag the masking stage gave it and the reading of the
    masking timer. *)
Theorem masked_result_is_answered env request arg left r masked :
  In (arg, left, Ret (r, masked)) (masking_calls (history_of (query env request))) ->
  str_truthy (rs_error masked) = false ->
  query_errors (history_of (query env request)) = [] ->
  response_of (query env request)
  = Return (JsonResponse 0 "ok" (PObject (heap (snd (query env request)) r))) /\
  rs_rows (heap (snd (query env request)) r) = rs_rows masked /\
  rs_is_masked (heap (snd (query env request)) r) = rs_is_masked masked /\
  rs_mask_time (heap (snd (query env request)) r) = mask_cost env.
Proof. exact (masked_query env request _ eq_refl arg left r masked). Qed.

Lemma masked_result_is_answered_witness :
  let hidden :=
    MkResultSet None [[PInt 1; PStr "***"]] ["id"; "name"] ["int"; "varchar"]
      37 12 0 true true None in
  let masking := fun (r : nat) (h : Heap) => (heap_set h 1%nat hidden, Ret 1%nat) in
  let env :=
    Sample.env {[ "data_masking" := PBool true ]} Sample.accept 100
      (Ret (Sample.rows 37 None)) masking in
  let request := Sample.request "select 1" "10" in
  let arg := with_query_time 12 (Sample.rows 37 None) in
  In (arg, arg, Ret (1%nat, hidden)) (masking_calls (history_of (query env request))) /\
  response_of (query env request)
  = Return (JsonResponse 0 "ok" (PObject (heap (snd (query env request)) 1%nat))) /\
  rs_rows (heap (snd (query env request)) 1%nat) = [[PInt 1; PStr "***"]] /\
  rs_is_masked (heap (snd (query env request)) 1%nat) = true /\
  rs_mask_time (heap (snd (query env request)) 1%nat) = 3.
Proof.
  intros hidden masking env request arg.
  assert (Hin : In (arg, arg, Ret (1%nat, hidden))
                  (masking_calls (history_of (query env request))))
    by (vm_compute; left; reflexivity).
  assert (Hok : str_truthy (rs_error hidden) = false) by reflexivity.
  assert (Hnone : query_errors (history_of (query env request)) = [])
    by (vm_compute; reflexivity).
  split; [exact Hin|].
  exact (masked_result_is_answered env request arg arg 1%nat hidden Hin Hok Hnone).
Defined.



(** X9. [query_download] answers in JSON only to refuse: the status is
    never 0, and either nothing was executed or an exception was caught. *)
Theorem download_json_is_refusal env request s m d :
  response_of (query_download env request) = Return (JsonResponse s m d) ->
  s <> 0 /\
  (executions (history_of (query_download env request)) = [] \/
   query_errors (history_of (query_download env request)) <> []).
Proof. exact (refusal_download env request _ eq_refl s m d). Qed.

Lemma download_json_is_refusal_witness :
  let env := Sample.env ∅ Sample.accept 100 (Ret (Sample.rows 37 None)) Sample.masking_fails in
  let request :=
    MkDownloadRequest (Some "pg02") (Some "select 1") (Some "sales") None (Some (PInt 10))
      None None Sample.alice in
  response_of (query_download env request)
  = Return (JsonResponse 1 "你所在组未关联该实例" (PDict None)) /\
  1 <> 0 /\
  (executions (history_of (query_download env request)) = [] \/
   query_errors (history_of (query_download env request)) <> []).
Proof.
  intros env request.
  assert (Hr : response_of (query_download env request)
               = Return (JsonResponse 1 "你所在组未关联该实例" (PDict None)))
    by (vm_compute; reflexivity).
  split; [exact Hr|].
  exact (download_json_is_refusal env request _ _ _ Hr).
Defined.

(** X10. A download whose execution returned a result with an error, no
    exception being caught: the audit record is saved with row count 0,
    and then the handler raises [KeyError] where it reads the columns of
    the empty data, so the caller gets neither a file nor the error of the
    engine. *)
Theorem download_error_raises_key_error env request sql limit rs :
  In (sql, limit, Ret rs) (executions (history_of (query_download env request))) ->
  str_truthy (rs_error rs) = true ->
  query_errors (history_of (query_download env request)) = [] ->
  response_of (query_download env request) = Throw (MkExn "KeyError" "'column_list'") /\
  exists log,
    audit_records (history_of (query_download env request)) = [(log, Ret tt)] /\
    ql_effect_row log = 0.
Proof. exact (proj1 (failed_download env request _ eq_refl) sql limit rs). Qed.

Lemma download_error_raises_key_error_witness :
  let env :=
    Sample.env {[ "download_limit" := PInt 5000 ]} Sample.accept 100
      (Ret (Sample.rows 0 (Some "syntax error"))) Sample.masking_fails in
  let request := Sample.download "selec 1" in
  In ("selec 1", PInt 5000, Ret (Sample.rows 0 (Some "syntax error")))
    (executions (history_of (query_download env request))) /\
  response_of (query_download env request) = Throw (MkExn "KeyError" "'column_list'") /\
  exists log,
    audit_records (history_of (query_download env request)) = [(log, Ret tt)] /\
    ql_effect_row log = 0.
Proof.
  intros env request.
  assert (Hin : In ("selec 1", PInt 5000, Ret (Sample.rows 0 (Some "syntax error")))
                  (executions (history_of (query_download env request))))
    by (vm_compute; left; reflexivity).
  assert (Herr : str_truthy (rs_error (Sample.rows 0 (Some "syntax error"))) = true)
    by reflexivity.
  assert (Hnone : query_errors (history_of (query_download env request)) = [])
    by (vm_compute; reflexivity).
  split; [exact Hin|].
  exact (download_error_raises_key_error env request _ _ _ Hin Herr Hnone).
Defined.

(** X11. A download whose masking call failed (it raised, or gave back an
    object with an error) with [query_check] on, no exception being caught
    by the outer handler: the handler raises [KeyError] where it reads the
    columns, instead of answering with the masking failure. *)
Theorem download_masking_failure_raises_key_error env request arg left out :
  In (arg, left, out) (masking_calls (history_of (query_download env request))) ->
  masking_failed out = true ->
  truthy (config_get (sys_config env) "query_check" PNone) = true ->
  query_errors (history_of (query_download env request)) = [] ->
  response_of (query_download env request) = Throw (MkExn "KeyError" "'column_list'").
Proof. exact (proj2 (failed_download env request _ eq_refl) arg left out). Qed.

Lemma download_masking_failure_raises_key_error_witness :
  let env :=
    Sample.env {[ "download_limit" := PInt 5000; "data_masking" := PBool true;
                  "query_check" := PBool true ]} Sample.accept 100
      (Ret (Sample.rows 37 None)) Sample.masking_fails in
  let request := Sample.download "select 1" in
  let arg := with_query_time 12 (Sample.rows 37 None) in
  In (arg, with_error (Some "no masking rule") arg,
      Ret (query_result, with_error (Some "no masking rule") arg))
    (masking_calls (history_of (query_download env request))) /\
  response_of (query_download env request) = Throw (MkExn "KeyError" "'column_list'").
Proof.
  intros env request arg.
  assert (Hin : In (arg, with_error (Some "no masking rule") arg,
                    Ret (query_result, with_error (Some "no masking rule") arg))
                  (masking_calls (history_of (query_download env request))))
    by (vm_compute; left; reflexivity).
  assert (Hfail : masking_failed
                    (Ret (query_result, with_error (Some "no masking rule") arg)) = true)
    by reflexivity.
  assert (Hstrict : truthy (config_get (sys_config env) "query_check" PNone) = true)
    by (vm_compute; reflexivity).
  assert (Hnone : query_errors (history_of (query_download env request)) = [])
    by (vm_compute; reflexivity).
  split; [exact Hin|].
  exact (download_masking_failure_raises_key_error env request _ _ _ Hin Hfail Hstrict
           Hnone).
Defined.

(** X12. A download with masking off and a [download_limit] that [int()]
    refuses, such as none configured: a statement that was executed without
    error is not logged, no audit record is saved, and the answer is the
    generic failure with the message of one caught exception, which is the
    one of [int()] unless removing the kill schedule raised before. *)
Theorem download_without_limit_is_unlogged env request e sql limit rs :
  py_int (config_get (sys_config env) "download_limit" PNone) = Raise e ->
  truthy (config_get (sys_config env) "data_masking" PNone) = false ->
  In (sql, limit, Ret rs) (executions (history_of (query_download env request))) ->
  str_truthy (rs_error rs) = false ->
  audit_records (history_of (query_download env request)) = [] /\
  exists e' d,
    query_errors (history_of (query_download env request)) = [e'] /\
    response_of (query_download env request)
    = Return (JsonResponse 1 ("查询异常报错，错误信息：" ++ exn_str e') d) /\
    ((forall name o,
        In (name, o) (removed_schedules (history_of (query_download env request))) ->
        o = Ret tt) ->
     e' = e).
Proof. exact (unlogged_download env request _ eq_refl e sql limit rs). Qed.

Lemma download_without_limit_is_unlogged_witness :
  let env := Sample.env ∅ Sample.accept 100 (Ret (Sample.rows 37 None)) Sample.masking_fails in
  let request := Sample.download "select 1" in
  In ("select 1", PNone, Ret (Sample.rows 37 None))
    (executions (history_of (query_download env request))) /\
  audit_records (history_of (query_download env request)) = [] /\
  exists e' d,
    query_errors (history_of (query_download env request)) = [e'] /\
    response_of (query_download env request)
    = Return (JsonResponse 1 ("查询异常报错，错误信息：" ++ exn_str e') d) /\
    ((forall name o,
        In (name, o) (removed_schedules (history_of (query_download env request))) ->
        o = Ret tt) ->
     exn_class e' = "TypeError").
Proof.
  intros env request.
  assert (Hin : In ("select 1", PNone, Ret (Sample.rows 37 None))
                  (executions (history_of (query_download env request))))
    by (vm_compute; left; reflexivity).
  assert (Hlimit : py_int (config_get (sys_config env) "download_limit" PNone)
                   = Raise (MkExn "TypeError"
                              "int() argument must be a string, a bytes-like object or a real number, not 'NoneType'"))
    by (vm_compute; reflexivity).
  assert (Hoff : truthy (config_get (sys_config env) "data_masking" PNone) = false)
    by (vm_compute; reflexivity).
  assert (Hok : str_truthy (rs_error (Sample.rows 37 None)) = false) by reflexivity.
  split; [exact Hin|].
  destruct (download_without_limit_is_unlogged env request _ _ _ _ Hlimit Hoff Hin Hok)
    as (Ha & e' & d & He & Hr & Hdel).
  split; [exact Ha|]. exists e', d. repeat split; try assumption.
  intros Hall. rewrite (Hdel Hall). reflexivity.
Defined.

(** ** [generate_sql] *)

Ltac gen_cases genv user request :=
  unfold generate_sql, generate_sql_view, generate_sql_try;
  destruct (has_perm user "sql.menu_sqlquery"); cbn;
  destruct (gen_query_desc request) as [d|], (gen_db_type request) as [t|]; cbn;
  repeat match goal with
         | |- context [match ?x with _ => _ end] =>
             let y := innermost x in destruct y eqn:?; cbn
         end.

(** X13. For a holder of [sql.menu_sqlquery], and unless the lookup of the
    instance raises something other than [DoesNotExist], [generate_sql]
    answers and never raises: with the text of the client and status 0
    when the client was asked and returned, with the message of the
    exception, status 1 and an empty text when the client raised, and with
    status 1 and no text when the client was never asked. *)
Theorem generate_sql_always_answers genv user request :
  has_perm user "sql.menu_sqlquery" = true ->
  (forall e, instance_by_name genv (gen_instance_name request) <> LookupRaises e) ->
  exists resp,
    snd (generate_sql genv user request) = Ret resp /\
    match generations (fst (generate_sql genv user request)) with
    | [(_, _, _, Ret text)] => resp = MkGenResponse 0 "ok" (GenText text)
    | [(_, _, _, Raise e)] => resp = MkGenResponse 1 (exn_str e) (GenText "")
    | _ => gen_status resp = 1 /\ (gen_data resp = GenList \/ gen_data resp = GenText "")
    end.
Proof.
  intros Hperm Hlookup. revert Hperm Hlookup.
  gen_cases genv user request; intros Hperm Hlookup;
    try discriminate Hperm;
    try (exfalso; eapply Hlookup; reflexivity);
    eexists; (split; [reflexivity|]); cbn; auto.
Qed.

Lemma generate_sql_always_answers_witness :
  let genv := SampleGen.env [[PStr "orders"; PStr "create table orders (id int)"]] in
  let user := SampleLog.alice in
  let request := SampleGen.request (Some "count the orders") in
  (forall e, instance_by_name genv (gen_instance_name request) <> LookupRaises e) /\
  generations (fst (generate_sql genv user request))
  = [("mysql", PStr "create table orders (id int)", "count the orders",
      Ret "select count(*) from orders")] /\
  exists resp,
    snd (generate_sql genv user request) = Ret resp /\
    match generations (fst (generate_sql genv user request)) with
    | [(_, _, _, Ret text)] => resp = MkGenResponse 0 "ok" (GenText text)
    | [(_, _, _, Raise e)] => resp = MkGenResponse 1 (exn_str e) (GenText "")
    | _ => gen_status resp = 1 /\ (gen_data resp = GenList \/ gen_data resp = GenText "")
    end.
Proof.
  intros genv user request.
  assert (Hl : forall e, instance_by_name genv (gen_instance_name request) <> LookupRaises e)
    by (intros e; vm_compute; discriminate).
  split; [exact Hl|]. split; [reflexivity|].
  exact (generate_sql_always_answers genv user request eq_refl Hl).
Defined.

(** X14. Whenever [generate_sql] asks the client, the user holds
    [sql.menu_sqlquery] and it passes the posted [db_type] and
    [query_desc], after exactly one [describe_table] that returned, and
    the structure it passes is the last cell of the first row of the
    description, or the empty text when the description has no rows. *)
Theorem generate_sql_structure genv user request db_type structure query_desc out :
  In (db_type, structure, query_desc, out)
    (generations (fst (generate_sql genv user request))) ->
  has_perm user "sql.menu_sqlquery" = true /\
  gen_db_type request = Some db_type /\
  gen_query_desc request = Some query_desc /\
  exists described,
    descriptions (fst (generate_sql genv user request)) = [Ret described] /\
    match rs_rows described with
    | [] => structure = PStr ""
    | row :: _ => last row = Some structure
    end.
Proof.
  gen_cases genv user request; crack.
  all: repeat split; try reflexivity.
  all: eexists; (split; [reflexivity|]).
  all: unfold table_structure in *.
  all: destruct (rs_rows _) as [|row rest]; [congruence|].
  all: destruct (last row); congruence.
Qed.

Lemma generate_sql_structure_witness :
  let genv := SampleGen.env [[PStr "orders"; PStr "create table orders (id int)"]] in
  let user := SampleLog.alice in
  let request := SampleGen.request (Some "count the orders") in
  In ("mysql", PStr "create table orders (id int)", "count the orders",
      Ret "select count(*) from orders")
    (generations (fst (generate_sql genv user request))) /\
  exists described,
    descriptions (fst (generate_sql genv user request)) = [Ret described] /\
    match rs_rows described with
    | [] => PStr "create table orders (id int)" = PStr ""
    | row :: _ => last row = Some (PStr "create table orders (id int)")
    end.
Proof.
  intros genv user request.
  assert (Hin : In ("mysql", PStr "create table orders (id int)", "count the orders",
                    Ret "select count(*) from orders")
                  (generations (fst (generate_sql genv user request))))
    by (vm_compute; left; reflexivity).
  split; [exact Hin|].
  exact (proj2 (proj2 (proj2 (generate_sql_structure genv user request _ _ _ _ Hin)))).
Defined.

(** X15. For a holder of [sql.menu_sqlquery], a description whose first
    row is empty: the read of its last cell raises inside the [try], so
    [generate_sql] answers with status 1, the message of that error and an
    empty text, and the client, though constructed, is never asked. *)
Theorem generate_sql_empty_first_row genv user request instance described rest :
  has_perm user "sql.menu_sqlquery" = true ->
  str_truthy (gen_query_desc request) = true ->
  str_truthy (gen_db_type request) = true ->
  instance_by_name genv (gen_instance_name request) = Found instance ->
  gen_get_engine genv instance = Ret tt ->
  describe_table genv instance (gen_db_name request) (gen_tb_name request)
    (gen_schema_name request) = Ret described ->
  openai_client genv = Ret tt ->
  rs_rows described = [] :: rest ->
  (exists m, snd (generate_sql genv user request) = Ret (MkGenResponse 1 m (GenText ""))) /\
  generations (fst (generate_sql genv user request)) = [].
Proof.
  intros Hperm Hd Ht Hi He Hdesc Ho Hrows.
  unfold generate_sql, generate_sql_view, generate_sql_try. rewrite Hperm.
  destruct (gen_query_desc request) as [d|]; [|discriminate Hd].
  destruct (gen_db_type request) as [t|]; [|discriminate Ht].
  rewrite Hd, Ht, Hi, He, Hdesc, Ho, Hrows. cbn. split; [eexists|]; reflexivity.
Qed.

Lemma generate_sql_empty_first_row_witness :
  let genv := SampleGen.env [[]] in
  let user := SampleLog.alice in
  let request := SampleGen.request (Some "count the orders") in
  (exists m, snd (generate_sql genv user request) = Ret (MkGenResponse 1 m (GenText ""))) /\
  generations (fst (generate_sql genv user request)) = [].
Proof.
  intros genv user request.
  apply (generate_sql_empty_first_row genv user request Sample.mysql01 (SampleGen.described [[]])
           []); reflexivity.
Defined.

(** ** The audit table *)

Lemma by_id_desc_total : Total by_id_desc.
Proof. intros a b. unfold by_id_desc. lia. Qed.

Lemma by_id_desc_trans : Transitive by_id_desc.
Proof. intros a b c. unfold by_id_desc. lia. Qed.

Lemma slice_sublist {A : Type} offset limit (rows page : list A) :
  slice offset limit rows = Ret page -> sublist page rows.
Proof.
  unfold slice. destruct (_ || _); [discriminate|].
  intros H. inversion H; subst; clear H. destruct limit.
  - etransitivity; [apply sublist_take|apply sublist_drop].
  - apply sublist_drop.
Qed.

Lemma slice_length {A : Type} offset limit (rows page : list A) :
  slice offset (Some limit) rows = Ret page ->
  (Z.of_nat (List.length page) <= Z.max 0 (limit - offset)).
Proof.
  unfold slice. destruct (_ || _); [discriminate|].
  intros H. inversion H; subst; clear H.
  rewrite length_take. lia.
Qed.

Lemma StronglySorted_sublist {A : Type} (R : relation A) (l k : list A) :
  sublist l k -> StronglySorted R k -> StronglySorted R l.
Proof.
  intros Hsub Hk. revert l Hsub.
  induction Hk as [|x k Hk IH Hx]; intros l Hsub.
  - apply sublist_nil_r in Hsub. subst. constructor.
  - apply sublist_cons_r in Hsub as [Hsub|(l' & -> & Hsub)]; [auto|].
    constructor; [auto|].
    rewrite Forall_forall in *. intros y Hy. apply Hx.
    eapply elem_of_sublist; eauto.
Qed.

Lemma filter_length_mono {A : Type} (P Q : A -> Prop)
    `{!forall x, Decision (P x)} `{!forall x, Decision (Q x)} (l : list A) :
  (forall x, P x -> Q x) ->
  (List.length (filter P l) <= List.length (filter Q l))%nat.
Proof.
  intros HPQ. induction l as [|x l IH]; [reflexivity|].
  rewrite !filter_cons.
  destruct (decide (P x)) as [HP|HP], (decide (Q x)) as [HQ|HQ]; cbn; try lia.
  exfalso. auto.
Qed.

(** The dictionary of a query: which keys it has. *)
Lemma filter_dict_keys db user q f :
  querylog_filter_dict db user q = Ret f ->
  f_favorite f = (if is_true_text (get_star q) then Some true else None) /\
  f_id f = (if str_truthy (get_query_log_id q) then get_query_log_id q else None) /\
  f_username f = (if is_superuser user || has_perm user "sql.audit_user"
                  then None else Some (username (principal user))).
Proof.
  unfold querylog_filter_dict.
  destruct (str_truthy (Some _) && str_truthy (Some _));
    [destruct (strptime db _); [|discriminate]|];
    intros H; inversion H; subst; clear H; cbn;
    destruct (is_true_text _), (is_superuser user || has_perm user _); auto.
Qed.

(** The rows [filter] keeps match every key of the dictionary. *)
Lemma orm_filter_keeps db f keep r :
  orm_filter db f = Ret keep ->
  keep r = true ->
  (forall b, f_favorite f = Some b -> log_favorite r = b) /\
  (forall s, f_id f = Some s -> id_of_text s = Ret (log_id r)) /\
  (forall u, f_username f = Some u -> log_username r = u).
Proof.
  unfold orm_filter. intros Hf.
  repeat match type of Hf with
         | context [match ?x with _ => _ end] =>
             let y := innermost x in destruct y eqn:?; try discriminate Hf
         end.
  all: inversion Hf; subst; clear Hf.
  all: repeat match goal with
         | H : Ret _ = Ret _ |- _ => inversion H; subst; clear H
         end.
  all: intros Hkeep; repeat (apply andb_prop in Hkeep as [Hkeep ?]).
  all: repeat split; intros ? Heq; try discriminate Heq;
       inversion Heq; subst; clear Heq.
  all: try (apply Bool.eqb_prop; assumption).
  all: try (apply String.eqb_eq; assumption).
  all: match goal with
       | H1 : id_of_text _ = Ret ?n, H2 : (_ =? ?n) = true |- _ =>
           apply Z.eqb_eq in H2; rewrite H1, H2; reflexivity
       end.
Qed.

Lemma selected_inv db user q table sel :
  selected db user q table = Ret sel ->
  exists f keep,
    querylog_filter_dict db user q = Ret f /\
    orm_filter db f = Ret keep /\
    sel = filter (fun r => keep r && search_filter db (default "" (get_search q)) r = true)
            table.
Proof.
  unfold selected.
  destruct (querylog_filter_dict _ _ _) as [f|] eqn:Hf; [|discriminate].
  destruct (orm_filter _ _) as [keep|] eqn:Hkeep; [|discriminate].
  intros [= <-]. exists f, keep. repeat split; auto.
Qed.

Lemma page_of db user q table total rows :
  _querylog db user q table = Ret (total, rows) ->
  exists limit offset sel page,
    get_int (get_limit q) = Ret limit /\
    get_int (get_offset q) = Ret offset /\
    selected db user q table = Ret sel /\
    slice offset (if offset + limit =? 0 then None else Some (offset + limit))
      (order_by_id_desc sel) = Ret page /\
    total = Z.of_nat (List.length sel) /\
    rows = map values page.
Proof.
  unfold _querylog.
  destruct (get_int (get_limit q)) as [limit|] eqn:Hl; [|discriminate].
  destruct (get_int (get_offset q)) as [offset|] eqn:Ho; [|discriminate].
  destruct (selected db user q table) as [sel|] eqn:Hs; [|discriminate].
  destruct (slice _ _ _) as [page|] eqn:Hslice; [|discriminate].
  intros H. inversion H; subst; clear H.
  exists limit, offset, sel, page. repeat split; auto.
Qed.

Lemma page_elem offset limit (sel page : list LogRow) r :
  slice offset limit (order_by_id_desc sel) = Ret page -> r ∈ page -> r ∈ sel.
Proof.
  intros Hslice Hr. apply slice_sublist in Hslice.
  eapply elem_of_sublist in Hslice; [|exact Hr].
  unfold order_by_id_desc in Hslice. now rewrite merge_sort_Permutation in Hslice.
Qed.

Lemma own_rows db user q table total rows :
  _querylog db user q table = Ret (total, rows) ->
  is_superuser user = false ->
  has_perm user "sql.audit_user" = false ->
  total <= Z.of_nat (List.length
                       (filter (fun r => log_username r = username (principal user)) table)) /\
  exists page,
    rows = map values page /\
    Forall (fun r => r ∈ table /\ log_username r = username (principal user)) page.
Proof.
  intros Hq Hsuper Hperm.
  apply page_of in Hq as (limit & offset & sel & page & _ & _ & Hsel & Hslice & -> & ->).
  apply selected_inv in Hsel as (f & keep & Hf & Hkeep & ->).
  apply filter_dict_keys in Hf as (_ & _ & Hu).
  rewrite Hsuper, Hperm in Hu. cbn in Hu.
  assert (Hown : forall r, keep r && search_filter db (default "" (get_search q)) r = true ->
                           log_username r = username (principal user)).
  { intros r [Hk _]%andb_prop.
    eapply orm_filter_keeps in Hkeep as (_ & _ & Hname); eauto. }
  split.
  - apply Nat2Z.inj_le. now apply filter_length_mono.
  - exists page. split; [reflexivity|].
    apply Forall_forall. intros r Hr.
    eapply page_elem in Hr; [|exact Hslice].
    apply list_elem_of_filter in Hr as [Hk Hin]. auto.
Qed.

(** X16. A user who is neither superuser nor auditor and gets an answer
    from [querylog]: the user holds [sql.menu_sqlquery], every row of the
    page is a row of the table under the user's own name, and the total
    counts no more than the user's own rows. *)
Theorem querylog_own_rows db user q table total rows :
  querylog db user q table = Ret (total, rows) ->
  is_superuser user = false ->
  has_perm user "sql.audit_user" = false ->
  has_perm user "sql.menu_sqlquery" = true /\
  total <= Z.of_nat (List.length
                       (filter (fun r => log_username r = username (principal user)) table)) /\
  exists page,
    rows = map values page /\
    Forall (fun r => r ∈ table /\ log_username r = username (principal user)) page.
Proof.
  unfold querylog, permission_required.
  destruct (has_perm user "sql.menu_sqlquery"); [|discriminate].
  intros Hq Hsuper Hperm. split; [reflexivity|].
  exact (own_rows db user q table total rows Hq Hsuper Hperm).
Qed.

Lemma querylog_own_rows_witness :
  let rows := map values [SampleLog.row 3 "alice" "select 3" false;
                          SampleLog.row 1 "alice" "select 1" false] in
  querylog SampleLog.db SampleLog.alice SampleLog.everything SampleLog.table = Ret (2, rows) /\
  2 <= Z.of_nat (List.length (filter (fun r => log_username r = "alice") SampleLog.table)) /\
  exists page,
    rows = map values page /\
    Forall (fun r => r ∈ SampleLog.table /\ log_username r = "alice") page.
Proof.
  intros rows.
  assert (Hq : querylog SampleLog.db SampleLog.alice SampleLog.everything SampleLog.table
               = Ret (2, rows)) by (vm_compute; reflexivity).
  split; [exact Hq|].
  exact (proj2 (querylog_own_rows SampleLog.db SampleLog.alice SampleLog.everything
                  SampleLog.table 2 rows Hq eq_refl eq_refl)).
Defined.

Lemma filter_all {A : Type} (P : A -> Prop) `{!forall x, Decision (P x)} (l : list A) :
  (forall x, x ∈ l -> P x) -> filter P l = l.
Proof.
  induction l as [|x l IH]; intros Hall; [reflexivity|].
  rewrite filter_cons. destruct (decide (P x)) as [|Hn].
  - f_equal. apply IH. intros y Hy. apply Hall. now right.
  - exfalso. apply Hn, Hall. now left.
Qed.

Lemma filter_dict_privileged db user other q :
  is_superuser user || has_perm user "sql.audit_user" = true ->
  is_superuser other || has_perm other "sql.audit_user" = true ->
  querylog_filter_dict db user q = querylog_filter_dict db other q.
Proof.
  intros Hu Ho. unfold querylog_filter_dict. now rewrite Hu, Ho.
Qed.

(** X17. An answer of [querylog_audit] is given to a holder of
    [sql.audit_user] only, and it is the answer every superuser or auditor
    gets for the same parameters: it does not depend on who asks. *)
Theorem querylog_audit_sees_all db user q table answer :
  querylog_audit db user q table = Ret answer ->
  has_perm user "sql.audit_user" = true /\
  forall other,
    is_superuser other || has_perm other "sql.audit_user" = true ->
    _querylog db other q table = Ret answer.
Proof.
  unfold querylog_audit, permission_required.
  destruct (has_perm user "sql.audit_user") eqn:Hperm; [|discriminate].
  intros Hq. split; [reflexivity|]. intros other Hother.
  rewrite <- Hq. unfold _querylog, selected.
  rewrite (filter_dict_privileged db other user q); [reflexivity|assumption|].
  rewrite Hperm. apply orb_true_r.
Qed.

Lemma querylog_audit_sees_all_witness :
  let answer := (3, map values [SampleLog.row 2 "bob" "select 2" false;
                                SampleLog.row 1 "alice" "select 1" false]) in
  querylog_audit SampleLog.db SampleLog.carol (SampleLog.page "2" "1") SampleLog.table
  = Ret answer /\
  forall other,
    is_superuser other || has_perm other "sql.audit_user" = true ->
    _querylog SampleLog.db other (SampleLog.page "2" "1") SampleLog.table = Ret answer.
Proof.
  intros answer.
  assert (Hq : querylog_audit SampleLog.db SampleLog.carol (SampleLog.page "2" "1")
                 SampleLog.table = Ret answer) by (vm_compute; reflexivity).
  split; [exact Hq|].
  exact (proj2 (querylog_audit_sees_all SampleLog.db SampleLog.carol (SampleLog.page "2" "1")
                  SampleLog.table answer Hq)).
Defined.

(** X18. A superuser or auditor who asks with no limit, no offset, no star,
    no id and no pair of dates, and whose search text every row matches,
    gets the whole table: the total is its length and the rows are all of
    it, by descending id. *)
Theorem querylog_everything db user q table :
  is_superuser user || has_perm user "sql.audit_user" = true ->
  get_int (get_limit q) = Ret 0 ->
  get_int (get_offset q) = Ret 0 ->
  is_true_text (get_star q) = false ->
  str_truthy (get_query_log_id q) = false ->
  str_truthy (get_start_date q) && str_truthy (get_end_date q) = false ->
  (forall r, r ∈ table -> search_filter db (default "" (get_search q)) r = true) ->
  _querylog db user q table
  = Ret (Z.of_nat (List.length table), map values (order_by_id_desc table)).
Proof.
  intros Hpriv Hl Ho Hstar Hid Hdates Hsearch.
  unfold _querylog, selected, querylog_filter_dict, orm_filter. rewrite Hl, Ho, Hpriv, Hstar, Hid.
  assert (Hd : str_truthy (Some (default "" (get_start_date q)))
               && str_truthy (Some (default "" (get_end_date q))) = false).
  { destruct (get_start_date q), (get_end_date q); cbn in *; auto. }
  rewrite Hd. cbn.
  rewrite filter_all.
  - unfold slice. cbn. now rewrite drop_0.
  - intros r Hr. cbn. now apply Hsearch.
Qed.

Lemma querylog_everything_witness :
  _querylog SampleLog.db SampleLog.carol SampleLog.everything SampleLog.table
  = Ret (3, map values (order_by_id_desc SampleLog.table)).
Proof.
  apply (querylog_everything SampleLog.db SampleLog.carol SampleLog.everything
           SampleLog.table); try reflexivity.
  intros r Hr. unfold SampleLog.table in Hr.
  repeat (apply elem_of_cons in Hr as [->|Hr]; [reflexivity|]).
  inversion Hr.
Defined.

Lemma StronglySorted_values (page : list LogRow) :
  StronglySorted by_id_desc page ->
  StronglySorted (fun a b => val_id b <= val_id a) (map values page).
Proof.
  induction 1 as [|r page Hs IH Hr]; cbn; constructor; [assumption|].
  apply Forall_forall. intros v (r' & -> & Hr')%list_elem_of_fmap.
  eapply Forall_forall in Hr; [exact Hr|exact Hr'].
Qed.

(** X19. Every answer of [_querylog]: the rows come by descending id, they
    are no more than the total, the total is no more than the table, and
    with a positive [limit] the rows are no more than the limit. *)
Theorem querylog_page db user q table total rows :
  _querylog db user q table = Ret (total, rows) ->
  StronglySorted (fun a b => val_id b <= val_id a) rows /\
  Z.of_nat (List.length rows) <= total /\
  total <= Z.of_nat (List.length table) /\
  (forall limit,
     get_int (get_limit q) = Ret limit -> 0 < limit ->
     Z.of_nat (List.length rows) <= limit).
Proof.
  intros Hq.
  apply page_of in Hq as (limit & offset & sel & page & Hl & Ho & Hsel & Hslice & -> & ->).
  pose proof (slice_sublist _ _ _ _ Hslice) as Hsub.
  assert (Hlen : (List.length page <= List.length sel)%nat).
  { apply sublist_length in Hsub. unfold order_by_id_desc in Hsub.
    now rewrite merge_sort_Permutation in Hsub. }
  repeat split.
  - apply StronglySorted_values. eapply StronglySorted_sublist; [exact Hsub|].
    exact (@StronglySorted_merge_sort _ by_id_desc _ by_id_desc_trans by_id_desc_total _).
  - rewrite length_map. lia.
  - apply selected_inv in Hsel as (f & keep & _ & _ & ->).
    apply Nat2Z.inj_le, length_filter.
  - intros limit' Hl' Hpos. rewrite Hl in Hl'. inversion Hl'; subst limit'.
    rewrite length_map.
    assert (Hoff : 0 <= offset).
    { unfold slice in Hslice. destruct (offset <? 0) eqn:Hneg; [discriminate|]. lia. }
    destruct (offset + limit =? 0) eqn:Hz; [lia|].
    apply slice_length in Hslice. lia.
Qed.

Lemma querylog_page_witness :
  let rows := map values [SampleLog.row 2 "bob" "select 2" false;
                          SampleLog.row 1 "alice" "select 1" false] in
  _querylog SampleLog.db SampleLog.carol (SampleLog.page "2" "1") SampleLog.table
  = Ret (3, rows) /\
  StronglySorted (fun a b => val_id b <= val_id a) rows /\
  Z.of_nat (List.length rows) <= 3 /\
  3 <= Z.of_nat (List.length SampleLog.table) /\
  (forall limit,
     get_int (get_limit (SampleLog.page "2" "1")) = Ret limit -> 0 < limit ->
     Z.of_nat (List.length rows) <= limit).
Proof.
  intros rows.
  assert (Hq : _querylog SampleLog.db SampleLog.carol (SampleLog.page "2" "1")
                 SampleLog.table = Ret (3, rows)) by (vm_compute; reflexivity).
  split; [exact Hq|].
  exact (querylog_page SampleLog.db SampleLog.carol (SampleLog.page "2" "1")
           SampleLog.table 3 rows Hq).
Defined.

(** X20. With [limit] 0 the slice has no upper bound only when the offset
    is 0 too, and then the answer holds every selected row; with a limit of
    0 and any other offset the answer of [_querylog] holds no row at all,
    whatever the total. *)
Theorem querylog_zero_limit db user q table total rows offset :
  _querylog db user q table = Ret (total, rows) ->
  get_int (get_limit q) = Ret 0 ->
  get_int (get_offset q) = Ret offset ->
  if offset =? 0 then Z.of_nat (List.length rows) = total else rows = [].
Proof.
  intros Hq Hl Ho.
  apply page_of in Hq as (limit & offset' & sel & page & Hl' & Ho' & Hsel & Hslice & -> & ->).
  rewrite Hl in Hl'. rewrite Ho in Ho'. inversion Hl'; inversion Ho'; subst. clear Hl' Ho'.
  rewrite Z.add_0_r in Hslice. unfold slice in Hslice.
  destruct (offset' =? 0) eqn:Hz.
  - apply Z.eqb_eq in Hz. subst. cbn in Hslice. inversion Hslice; subst.
    rewrite drop_0, length_map. unfold order_by_id_desc.
    now rewrite merge_sort_Permutation.
  - destruct (_ || _); [discriminate|]. inversion Hslice; subst.
    rewrite Z.sub_diag. reflexivity.
Qed.

Lemma querylog_zero_limit_witness :
  _querylog SampleLog.db SampleLog.carol (SampleLog.page "0" "2") SampleLog.table
  = Ret (3, []) /\
  get_int (get_limit (SampleLog.page "0" "2")) = Ret 0 /\
  get_int (get_offset (SampleLog.page "0" "2")) = Ret 2 /\
  (if 2 =? 0 then Z.of_nat (List.length (@nil LogValues)) = 3 else @nil LogValues = []).
Proof.
  assert (Hq : _querylog SampleLog.db SampleLog.carol (SampleLog.page "0" "2")
                 SampleLog.table = Ret (3, [])) by (vm_compute; reflexivity).
  split; [exact Hq|]. split; [reflexivity|]. split; [reflexivity|].
  exact (querylog_zero_limit SampleLog.db SampleLog.carol (SampleLog.page "0" "2")
           SampleLog.table 3 [] 2 Hq eq_refl eq_refl).
Defined.

(** X21. A negative offset, or an offset and limit whose sum is negative,
    never gives an answer: [_querylog] raises. *)
Theorem querylog_negative_bounds db user q table limit offset :
  get_int (get_limit q) = Ret limit ->
  get_int (get_offset q) = Ret offset ->
  offset < 0 \/ offset + limit < 0 ->
  exists e, _querylog db user q table = Raise e.
Proof.
  intros Hl Ho Hneg. unfold _querylog. rewrite Hl, Ho.
  destruct (selected db user q table) as [sel|e]; [|eauto].
  unfold slice.
  assert (Hb : (offset <? 0)
               || match (if offset + limit =? 0 then None else Some (offset + limit)) with
                  | Some stop => stop <? 0
                  | None => false
                  end = true).
  { destruct (offset <? 0) eqn:H1; [reflexivity|]. cbn.
    destruct (offset + limit =? 0) eqn:H2; lia. }
  rewrite Hb. eauto.
Qed.

Lemma querylog_negative_bounds_witness :
  get_int (get_limit (SampleLog.page "2" "-1")) = Ret 2 /\
  get_int (get_offset (SampleLog.page "2" "-1")) = Ret (-1) /\
  exists e,
    _querylog SampleLog.db SampleLog.carol (SampleLog.page "2" "-1") SampleLog.table
    = Raise e.
Proof.
  split; [reflexivity|]. split; [reflexivity|].
  apply (querylog_negative_bounds SampleLog.db SampleLog.carol (SampleLog.page "2" "-1")
           SampleLog.table 2 (-1)); [reflexivity|reflexivity|left; lia].
Defined.

Lemma id_of_text_truthy s n : id_of_text s = Ret n -> str_truthy (Some s) = true.
Proof.
  destruct s as [|c s]; [|reflexivity]. discriminate.
Qed.

Lemma save_favorite_inv db id star alias table table' :
  save_favorite db id star alias table = Ret table' ->
  exists s n,
    id = Some s /\ id_of_text s = Ret n /\
    (exists r, r ∈ table /\ log_id r = n) /\
    table' = map (fun r => if log_id r =? n then with_favorite star alias r else r) table.
Proof.
  unfold save_favorite. destruct id as [s|]; [|discriminate].
  destruct (id_of_text s) as [n|] eqn:Hn; [|discriminate].
  destruct (existsb _ table) eqn:Hex; [|discriminate].
  destruct (accepts_update db); [|discriminate].
  intros [= <-]. exists s, n. repeat split; auto.
  apply existsb_exists in Hex as (r & Hin & Hr).
  exists r. split; [now apply list_elem_of_In|now apply Z.eqb_eq].
Qed.

(** X22. When [favorite] succeeds the user holds [sql.menu_sqlquery], the
    posted id reads as the id of a row of the table, and the table
    afterwards is the old one row by row: rows with that id have the posted
    star and alias and are otherwise unchanged, every other row is
    untouched. A missing id, an id that is no number and an id of no row
    all fail. *)
Theorem favorite_touches_two_columns db user request table table' :
  favorite db user request table = Ret table' ->
  has_perm user "sql.menu_sqlquery" = true /\
  exists s n,
    fav_query_log_id request = Some s /\ id_of_text s = Ret n /\
    (exists r, r ∈ table /\ log_id r = n) /\
    Forall2
      (fun r r' =>
         with_favorite (log_favorite r) (log_alias r) r' = r /\
         if log_id r =? n
         then log_favorite r' = is_true_text (fav_star request) /\
              log_alias r' = fav_alias request
         else r' = r)
      table table'.
Proof.
  unfold favorite, permission_required.
  destruct (has_perm user "sql.menu_sqlquery"); [|discriminate].
  intros (s & n & Hs & Hn & Hex & ->)%save_favorite_inv.
  split; [reflexivity|]. exists s, n. repeat split; auto.
  apply Forall2_fmap_r, Forall_Forall2_diag, Forall_forall. intros r _.
  destruct r as [i ? ? ? ? ? ? ? ? ? ?]; cbn. destruct (i =? n); cbn; auto.
Qed.

Lemma favorite_touches_two_columns_witness :
  let request := MkFavoriteRequest (Some "3") (Some "true") (Some "third") in
  let table' := [SampleLog.row 1 "alice" "select 1" false;
                 SampleLog.row 2 "bob" "select 2" false;
                 with_favorite true (Some "third") (SampleLog.row 3 "alice" "select 3" false)] in
  favorite SampleLog.db SampleLog.alice request SampleLog.table = Ret table' /\
  exists s n,
    fav_query_log_id request = Some s /\ id_of_text s = Ret n /\
    (exists r, r ∈ SampleLog.table /\ log_id r = n) /\
    Forall2
      (fun r r' =>
         with_favorite (log_favorite r) (log_alias r) r' = r /\
         if log_id r =? n
         then log_favorite r' = is_true_text (fav_star request) /\
              log_alias r' = fav_alias request
         else r' = r)
      SampleLog.table table'.
Proof.
  intros request table'.
  assert (Hf : favorite SampleLog.db SampleLog.alice request SampleLog.table = Ret table')
    by (vm_compute; reflexivity).
  split; [exact Hf|].
  exact (proj2 (favorite_touches_two_columns SampleLog.db SampleLog.alice request
                  SampleLog.table table' Hf)).
Defined.

Lemma NoDup_map_inj {A B : Type} (f : A -> B) (l : list A) (x y : A) :
  NoDup (map f l) -> x ∈ l -> y ∈ l -> f x = f y -> x = y.
Proof.
  induction l as [|z l IH]; intros Hdup Hx Hy Hf; [inversion Hx|].
  cbn in Hdup. apply NoDup_cons in Hdup as [Hz Hdup].
  apply elem_of_cons in Hx as [->|Hx]; apply elem_of_cons in Hy as [->|Hy]; auto.
  - exfalso. apply Hz. rewrite Hf. now apply list_elem_of_fmap_2.
  - exfalso. apply Hz. rewrite <- Hf. now apply list_elem_of_fmap_2.
Qed.

Lemma filter_none {A : Type} (P : A -> Prop) `{!forall x, Decision (P x)} (l : list A) :
  (forall x, x ∈ l -> ~ P x) -> filter P l = [].
Proof.
  induction l as [|x l IH]; intros Hnone; [reflexivity|].
  rewrite filter_cons. destruct (decide (P x)) as [Hp|_].
  - exfalso. apply (Hnone x); [now left|exact Hp].
  - apply IH. intros y Hy. apply Hnone. now right.
Qed.

(** In a table with one row per id, the rows with the id of [x] are [x]. *)
Lemma filter_unique (P : LogRow -> Prop) `{!forall r, Decision (P r)}
    (upd : LogRow -> LogRow) (l : list LogRow) (x : LogRow) :
  NoDup (map log_id l) ->
  x ∈ l ->
  (forall r, r ∈ l -> P (upd r) <-> log_id r = log_id x) ->
  filter P (map upd l) = [upd x].
Proof.
  induction l as [|y l IH]; intros Hdup Hx HP; [inversion Hx|].
  cbn in Hdup. apply NoDup_cons in Hdup as [Hy Hdup].
  assert (Hrest : forall r, r ∈ l -> log_id r <> log_id y).
  { intros r Hr Heq. apply Hy. rewrite <- Heq. apply list_elem_of_fmap. eauto. }
  change (map upd (y :: l)) with (upd y :: map upd l). rewrite filter_cons.
  apply elem_of_cons in Hx as [->|Hx].
  - destruct (decide (P (upd y))) as [_|Hn].
    + f_equal. apply filter_none.
      intros r' (r & -> & Hr)%list_elem_of_fmap Hp.
      apply HP in Hp; [|now right]. now apply (Hrest r).
    + exfalso. apply Hn, HP; [now left|reflexivity].
  - destruct (decide (P (upd y))) as [Hp|_].
    + exfalso. apply HP in Hp; [|now left]. symmetry in Hp. now apply (Hrest x).
    + apply IH; auto. intros r Hr. apply HP. now right.
Qed.

(** X23. Round trip through the table, one row per id: after a user has
    starred a row of their own with [favorite], asking [_querylog] for the
    starred rows with that id gives a total of 1 and exactly that row, with
    the star and the alias that were posted (the search text being empty
    and matched by the row). *)
Theorem favorite_then_listed db user s n alias table table' row :
  NoDup (map log_id table) ->
  row ∈ table ->
  log_id row = n ->
  log_username row = username (principal user) ->
  id_of_text s = Ret n ->
  favorite db user (MkFavoriteRequest (Some s) (Some "true") alias) table = Ret table' ->
  search_filter db "" (with_favorite true alias row) = true ->
  _querylog db user (MkLogQuery None None (Some "true") (Some s) None None None) table'
  = Ret (1, [values (with_favorite true alias row)]).
Proof.
  intros Hdup Hrow <- Hown Hs Hfav Hsearch.
  unfold favorite, permission_required in Hfav.
  destruct (has_perm user "sql.menu_sqlquery"); [|discriminate].
  apply save_favorite_inv in Hfav as (s' & n' & [= <-] & Hn' & _ & ->).
  rewrite Hs in Hn'. injection Hn' as <-.
  unfold _querylog, selected, querylog_filter_dict, orm_filter. cbn.
  pose proof (id_of_text_truthy s _ Hs) as Ht. cbn in Ht. rewrite Ht, Hs. cbn.
  erewrite (filter_unique _ _ table row Hdup Hrow).
  - rewrite (Z.eqb_refl (log_id row)). reflexivity.
  - intros r Hr. cbn. split.
    + intros Hk. apply andb_prop in Hk as [Hk _].
      repeat (apply andb_prop in Hk as [Hk ?]).
      destruct (log_id r =? log_id row) eqn:Hrn; [now apply Z.eqb_eq|].
      congruence.
    + intros Hr'.
      assert (Heq : r = row).
      { apply (NoDup_map_inj log_id table); auto. }
      subst r. rewrite (Z.eqb_refl (log_id row)). cbn.
      rewrite (Z.eqb_refl (log_id row)), Hsearch, !andb_true_r. cbn.
      destruct (is_superuser user || has_perm user "sql.audit_user"); cbn; [reflexivity|].
      rewrite Hown. apply String.eqb_refl.
Qed.

Lemma favorite_then_listed_witness :
  let row := SampleLog.row 3 "alice" "select 3" false in
  let table' := [SampleLog.row 1 "alice" "select 1" false;
                 SampleLog.row 2 "bob" "select 2" false;
                 with_favorite true (Some "third") row] in
  favorite SampleLog.db SampleLog.alice
    (MkFavoriteRequest (Some "3") (Some "true") (Some "third")) SampleLog.table
  = Ret table' /\
  _querylog SampleLog.db SampleLog.alice
    (MkLogQuery None None (Some "true") (Some "3") None None None) table'
  = Ret (1, [values (with_favorite true (Some "third") row)]).
Proof.
  intros row table'.
  assert (Hf : favorite SampleLog.db SampleLog.alice
                 (MkFavoriteRequest (Some "3") (Some "true") (Some "third")) SampleLog.table
               = Ret table') by (vm_compute; reflexivity).
  split; [exact Hf|].
  apply (favorite_then_listed SampleLog.db SampleLog.alice "3" 3 (Some "third")
           SampleLog.table table' row).
  - unfold SampleLog.table. cbn. repeat constructor; rewrite ?elem_of_cons, ?elem_of_nil; lia.
  - unfold SampleLog.table. do 2 right. left.
  - reflexivity.
  - reflexivity.
  - reflexivity.
  - exact Hf.
  - reflexivity.
Defined.
